(** * Corolaria API: the endpoint handlers and their contracts

    A shallow embedding of the API layer of the repository
    ([src/indications/*.py]): the two copies of [format_date], the
    breadcrumb formatter [format_context_path], the query validator
    [query_not_empty], and the handlers [get_article],
    [get_article_versions], [semantic_search], [login],
    [get_current_user], the authenticated [chat] and the conversation
    endpoints beside it.

    Python strings are modelled by [string], one [ascii] standing for one
    character. The methods of [str] that depend on the Unicode tables of
    the interpreter ([upper], [capitalize], [title], [isupper] and the
    whitespace that [strip] removes) are not part of the repository: the
    functions that use them take them through the class [StrMethods], and
    what is proved of these functions holds for any such methods.
    Python integers are [Z], Python floats are binary64 [float]s.
    Collaborators that are injected into the handlers (repositories, the
    chat service, the embedding provider, the graph adapter) are Section
    variables of the handler that uses them. *)

From Stdlib Require Import ZArith String Ascii List Floats DecimalString.
From stdpp Require Import base option list gmap strings.

Open Scope Z_scope.
Open Scope string_scope.

(** ** Python prelude *)

Module Py.

(** Exceptions other than [HTTPException], by class; the payload is
    [str(e)]. [OtherException] stands for every class the handlers never
    name in an [except] clause. *)
Inductive PyExc : Type :=
| TypeError (msg : string)
| ValueError (msg : string)
| IndexError (msg : string)
| OtherException (msg : string).

Definition exc_str (e : PyExc) : string :=
  match e with
  | TypeError m | ValueError m | IndexError m | OtherException m => m
  end.

(** A computation that returns or raises. *)
Inductive Result (E A : Type) : Type :=
| Return (a : A)
| Raise (e : E).
Arguments Return {E A} a.
Arguments Raise {E A} e.

Definition bind {E A B} (m : Result E A) (k : A -> Result E B) : Result E B :=
  match m with
  | Return a => k a
  | Raise e => Raise e
  end.

(** [try: body / except ...: handler]; the handler re-raises what its
    [except] clauses do not match. *)
Definition try_except {E E' A} (body : Result E A) (handler : E -> Result E' A)
  : Result E' A :=
  match body with
  | Return a => Return a
  | Raise e => handler e
  end.

Definition lift_exc {E E' A} (inj : E -> E') (m : Result E A) : Result E' A :=
  try_except m (fun e => Raise (inj e)).

Declare Scope result_scope.
Delimit Scope result_scope with result.
Notation "'let*' x := m 'in' k" := (bind m (fun x => k))
  (at level 10, x name, m at level 100, k at level 200) : result_scope.

(** [len(s)], [not s] and [s[lo:hi]] for [0 <= lo <= hi]; slicing a
    [str] never raises, whatever the bounds. *)
Definition len (s : string) : Z := Z.of_nat (String.length s).

Definition truthy (s : string) : bool :=
  match s with EmptyString => false | String _ _ => true end.

Definition slice (s : string) (lo hi : nat) : Result PyExc string :=
  Return (substring lo (hi - lo) s).

(** [x or ""] for an optional string. *)
Definition or_empty (o : option string) : string :=
  match o with
  | Some s => s
  | None => ""
  end.

(** [x is None]. *)
Definition is_None {A} (o : option A) : bool :=
  match o with
  | None => true
  | Some _ => false
  end.

(** [str(n)] for an [int]. *)
Definition str_int (n : Z) : string := NilZero.string_of_int (Z.to_int n).

(** The case methods on the ASCII letters, every other character being
    taken as uncased: what Python's methods do on a string of ASCII
    characters. They serve to run the functions on such strings. *)
Definition is_upper_char (c : ascii) : bool :=
  let n := nat_of_ascii c in (65 <=? n)%nat && (n <=? 90)%nat.

Definition is_lower_char (c : ascii) : bool :=
  let n := nat_of_ascii c in (97 <=? n)%nat && (n <=? 122)%nat.

Definition is_cased_char (c : ascii) : bool := is_upper_char c || is_lower_char c.

Definition upper_char (c : ascii) : ascii :=
  if is_lower_char c then ascii_of_nat (nat_of_ascii c - 32) else c.

Definition lower_char (c : ascii) : ascii :=
  if is_upper_char c then ascii_of_nat (nat_of_ascii c + 32) else c.

Fixpoint ascii_upper (s : string) : string :=
  match s with
  | EmptyString => EmptyString
  | String c r => String (upper_char c) (ascii_upper r)
  end.

Fixpoint ascii_lower (s : string) : string :=
  match s with
  | EmptyString => EmptyString
  | String c r => String (lower_char c) (ascii_lower r)
  end.

(** First character upper-cased, the rest lower-cased. *)
Definition ascii_capitalize (s : string) : string :=
  match s with
  | EmptyString => EmptyString
  | String c r => String (upper_char c) (ascii_lower r)
  end.

(** No lowercase character and at least one uppercase one. *)
Fixpoint ascii_isupper_from (cased : bool) (s : string) : bool :=
  match s with
  | EmptyString => cased
  | String c r =>
      if is_lower_char c then false
      else ascii_isupper_from (cased || is_upper_char c) r
  end.

Definition ascii_isupper (s : string) : bool := ascii_isupper_from false s.

(** A cased character is upper-cased when the character before it is
    uncased (or there is none) and lower-cased otherwise. *)
Fixpoint ascii_title_from (previous_is_cased : bool) (s : string) : string :=
  match s with
  | EmptyString => EmptyString
  | String c r =>
      String (if previous_is_cased then lower_char c else upper_char c)
             (ascii_title_from (is_cased_char c) r)
  end.

Definition ascii_title (s : string) : string := ascii_title_from false s.

(** The whitespace characters among the first 256 code points: tab, line
    feed, vertical tab, form feed, carriage return, the separators
    0x1C-0x1F, the space, NEL (0x85) and the no-break space (0xA0). *)
Definition latin1_space_char (c : ascii) : bool :=
  let n := nat_of_ascii c in
  ((9 <=? n)%nat && (n <=? 13)%nat) || ((28 <=? n)%nat && (n <=? 32)%nat)
  || (n =? 133)%nat || (n =? 160)%nat.

(** The methods of [str] that read the Unicode tables of the interpreter:
    [s.upper()], [s.capitalize()], [s.title()], [s.isupper()], and
    whether a character is whitespace (what [s.strip()] removes). *)
Class StrMethods : Type := {
  upper : string -> string;
  capitalize : string -> string;
  title : string -> string;
  isupper : string -> bool;
  is_space_char : ascii -> bool
}.

(** [sep.join(items)]. *)
Fixpoint join (sep : string) (items : list string) : string :=
  match items with
  | [] => ""
  | [x] => x
  | x :: rest => x +:+ sep +:+ join sep rest
  end.

(** The values an untyped row field can hold, as far as the handlers
    look at them. *)
Inductive PyValue : Type :=
| PyNone
| PyBool (b : bool)
| PyInt (n : Z)
| PyFloat (x : float)
| PyStr (s : string).

(** [type(v).__name__]. *)
Definition type_name (v : PyValue) : string :=
  match v with
  | PyNone => "NoneType"
  | PyBool _ => "bool"
  | PyInt _ => "int"
  | PyFloat _ => "float"
  | PyStr _ => "str"
  end.

(** [isinstance(v, int)]; [bool] is a subclass of [int]. *)
Definition isinstance_int (v : PyValue) : bool :=
  match v with
  | PyInt _ | PyBool _ => true
  | _ => false
  end.

(** The [detail] dictionary of an error response:
    [{"error": ..., "message": ..., "details": {...}}], the last key
    being optional. *)
Record Detail : Type := mkDetail {
  error : string;
  message : string;
  details : option (list (string * string))
}.

(** What leaves a handler when it does not return: an [HTTPException]
    raised by the handler, or any other exception that no [except] clause
    caught. *)
Inductive Exception : Type :=
| HTTPException (status_code : Z) (detail : Detail)
| Uncaught (e : PyExc).

Definition HTTP_401_UNAUTHORIZED : Z := 401.
Definition HTTP_402_PAYMENT_REQUIRED : Z := 402.
Definition HTTP_404_NOT_FOUND : Z := 404.
Definition HTTP_500_INTERNAL_SERVER_ERROR : Z := 500.

Section Strip.

Context `{StrMethods}.

(** [s.lstrip()], [s.rstrip()] and [s.strip()]: the whitespace at the
    start, at the end and at both ends is removed. *)
Fixpoint lstrip (s : string) : string :=
  match s with
  | EmptyString => EmptyString
  | String c r => if is_space_char c then lstrip r else s
  end.

Fixpoint rstrip (s : string) : string :=
  match s with
  | EmptyString => EmptyString
  | String c r =>
      match rstrip r with
      | EmptyString => if is_space_char c then EmptyString else String c EmptyString
      | r' => String c r'
      end
  end.

Definition strip (s : string) : string := rstrip (lstrip s).

End Strip.

(** The methods on ASCII strings, with the whitespace of the first 256
    code points. *)
Definition ascii_str : StrMethods :=
  {| upper := ascii_upper;
     capitalize := ascii_capitalize;
     title := ascii_title;
     isupper := ascii_isupper;
     is_space_char := latin1_space_char |}.

End Py.

Import Py.

(** ** [src/indications/api_schema.py] *)

Module ApiSchema.

Section Validators.

Context `{StrMethods}.

(** The field validator of [SemanticSearchRequest.query]. *)
Definition query_not_empty (v : string) : Result PyExc string :=
  if negb (truthy (strip v)) then
    Raise (ValueError "Query cannot be empty or only whitespace")
  else Return (strip v).

End Validators.

End ApiSchema.

(** ** [src/indications/api_article_endpoints.py] *)

Module ApiArticleEndpoints.

(** The [try] block of [format_date]. *)
Definition format_date_try (date_str : string) : Result PyExc string :=
  (let* year := slice date_str 0 4 in
   let* month := slice date_str 4 6 in
   let* day := slice date_str 6 8 in
   Return (year +:+ "-" +:+ month +:+ "-" +:+ day))%result.

Definition format_date (date_str : option string) : Result PyExc (option string) :=
  match date_str with
  | None => Return None
  | Some s =>
      if negb (truthy s) || negb (len s =? 8)%Z then Return (Some s)
      else
        try_except
          (let* r := format_date_try s in Return (Some r))%result
          (fun e =>
             match e with
             | ValueError _ | IndexError _ => Return (Some s)
             | _ => Raise e
             end)
  end.

(** A row of [adapter.get_article_versions]: a dictionary read with
    [.get]; [None] is a key that is absent (or, for the keys read without
    a default, holds [None]). Present values have the type the response
    schema requires of them. *)
Record VersionRow : Type := mkVersionRow {
  v_article_id : option Z;
  v_article_number : option string;
  v_validity_start : option string;
  v_validity_end : option string;
  v_article_text : option string;
  v_normativa_title : option string
}.

Record ArticleVersionInfo : Type := mkArticleVersionInfo {
  node_id : string;
  article_number : string;
  fecha_vigencia : option string;
  fecha_caducidad : option string;
  is_current_version : bool;
  article_text : string
}.

Record ArticleVersionsResponse : Type := mkArticleVersionsResponse {
  avr_article_number : string;
  avr_normativa_title : string;
  versions : list ArticleVersionInfo;
  total_versions : Z
}.

(** The [for v in versions] loop, appending to [version_infos]. *)
Fixpoint version_infos_loop (versions : list VersionRow)
    (version_infos : list ArticleVersionInfo)
  : Result Exception (list ArticleVersionInfo) :=
  match versions with
  | [] => Return version_infos
  | v :: rest =>
      (let is_current := is_None (v_validity_end v) in
       let* vigencia := lift_exc Uncaught (format_date (v_validity_start v)) in
       let* caducidad := lift_exc Uncaught (format_date (v_validity_end v)) in
       version_infos_loop rest
         (version_infos ++
          [ {| node_id := from_option str_int "" (v_article_id v);
               article_number := default "" (v_article_number v);
               fecha_vigencia := vigencia;
               fecha_caducidad := caducidad;
               is_current_version := is_current;
               article_text := or_empty (v_article_text v) |} ]))%result
  end.

Section GetArticleVersions.

(** [Neo4jAdapter(connection).get_article_versions], not under [src/]. *)
Variable adapter_get_article_versions : Z -> list VersionRow.

Definition get_article_versions (node_id : Z)
  : Result Exception ArticleVersionsResponse :=
  let versions := adapter_get_article_versions node_id in
  match versions with
  | [] =>
      Raise (HTTPException HTTP_404_NOT_FOUND
               {| error := "ArticleNotFound";
                  message := "Article with node_id '" +:+ str_int node_id
                             +:+ "' not found";
                  details := None |})
  | first :: _ =>
      (let* version_infos := version_infos_loop versions [] in
       let normativa_title := default "" (v_normativa_title first) in
       let article_number := default "" (v_article_number first) in
       Return {| avr_article_number := article_number;
                 avr_normativa_title := normativa_title;
                 versions := version_infos;
                 total_versions := Z.of_nat (length version_infos) |})%result
  end.

End GetArticleVersions.

(** The row of [adapter.get_article_by_id], read with [.get] like a
    [VersionRow]. *)
Record ArticleRow : Type := mkArticleRow {
  a_node_id : option Z;
  a_article_number : option string;
  a_article_text : option string;
  a_article_path : option string;
  a_normativa_title : option string;
  a_normativa_id : option string;
  a_fecha_publicacion : option string;
  a_fecha_vigencia : option string;
  a_fecha_caducidad : option string;
  a_previous_version_id : option Z;
  a_next_version_id : option Z;
  a_context_path : list (gmap string string)
}.

Record ArticleDetailResponse : Type := mkArticleDetailResponse {
  ad_node_id : string;
  ad_article_number : string;
  ad_article_text : string;
  ad_article_path : string;
  ad_normativa_title : string;
  ad_normativa_id : string;
  ad_fecha_publicacion : option string;
  ad_fecha_vigencia : option string;
  ad_fecha_caducidad : option string;
  ad_previous_version_id : option string;
  ad_next_version_id : option string;
  ad_context_path : list (gmap string string)
}.

(** [str(x) if x else None] for a node id. *)
Definition str_if (x : option Z) : option string :=
  match x with
  | Some n => if (n =? 0)%Z then None else Some (str_int n)
  | None => None
  end.

Section GetArticle.

(** [Neo4jAdapter(connection).get_article_by_id], not under [src/];
    [None] is the adapter returning [None] or an empty dictionary. *)
Variable adapter_get_article_by_id : Z -> option ArticleRow.

Definition get_article (node_id : Z) : Result Exception ArticleDetailResponse :=
  match adapter_get_article_by_id node_id with
  | None =>
      Raise (HTTPException HTTP_404_NOT_FOUND
               {| error := "ArticleNotFound";
                  message := "Article with node_id '" +:+ str_int node_id
                             +:+ "' not found";
                  details := None |})
  | Some result =>
      (let* publicacion := lift_exc Uncaught (format_date (a_fecha_publicacion result)) in
       let* vigencia := lift_exc Uncaught (format_date (a_fecha_vigencia result)) in
       let* caducidad := lift_exc Uncaught (format_date (a_fecha_caducidad result)) in
       Return {| ad_node_id := from_option str_int "" (a_node_id result);
                 ad_article_number := default "" (a_article_number result);
                 ad_article_text := or_empty (a_article_text result);
                 ad_article_path := or_empty (a_article_path result);
                 ad_normativa_title := default "" (a_normativa_title result);
                 ad_normativa_id := default "" (a_normativa_id result);
                 ad_fecha_publicacion := publicacion;
                 ad_fecha_vigencia := vigencia;
                 ad_fecha_caducidad := caducidad;
                 ad_previous_version_id := str_if (a_previous_version_id result);
                 ad_next_version_id := str_if (a_next_version_id result);
                 ad_context_path := a_context_path result |})%result
  end.

End GetArticle.

End ApiArticleEndpoints.

(** ** [src/indications/api_search_endpoints.py] *)

Module ApiSearchEndpoints.

Definition format_date_try (date_str : string) : Result PyExc string :=
  (let* year := slice date_str 0 4 in
   let* month := slice date_str 4 6 in
   let* day := slice date_str 6 8 in
   Return (year +:+ "-" +:+ month +:+ "-" +:+ day))%result.

Definition format_date (date_str : option string) : Result PyExc (option string) :=
  match date_str with
  | None => Return None
  | Some s =>
      if negb (truthy s) || negb (len s =? 8)%Z then Return (Some s)
      else
        try_except
          (let* r := format_date_try s in Return (Some r))%result
          (fun e =>
             match e with
             | ValueError _ | IndexError _ => Return (Some s)
             | _ => Raise e
             end)
  end.

Section WithStrMethods.

Context `{StrMethods}.

(** [item.get(key, "")] on a [Dict[str, str]]. *)
Definition get_str (item : gmap string string) (key : string) : string :=
  default "" (item !! key).

(** [item.get("type", "").upper() not in ("ROOT", "CONTENT")]. *)
Definition keeps (item : gmap string string) : bool :=
  let t := upper (get_str item "type") in
  negb (String.eqb t "ROOT" || String.eqb t "CONTENT").

(** The body of the [for item in reversed_path] loop: the formatted
    item that is appended. *)
Definition format_item (item : gmap string string) : string :=
  let item_type := capitalize (get_str item "type") in
  let item_name := get_str item "name" in
  let item_name :=
    if isupper item_name && (1 <? len item_name)%Z then title item_name
    else item_name in
  item_type +:+ " " +:+ item_name.

Definition format_context_path (context_path : list (gmap string string)) : string :=
  match context_path with
  | [] => ""
  | _ =>
      let filtered := List.filter keeps context_path in
      match filtered with
      | [] => ""
      | _ =>
          let reversed_path := rev filtered in
          let formatted_items :=
            fold_left (fun (formatted_items : list string) item =>
                         (formatted_items ++ [format_item item])%list)
                      reversed_path [] in
          join ", " formatted_items
      end
  end.

Record SemanticSearchRequest : Type := mkSemanticSearchRequest {
  query : string;
  top_k : Z;
  index_name : string
}.

(** A hit of [adapter.vector_search], a dictionary read with [.get].
    [article_id] is kept untyped, since the handler checks its type; the
    other keys are [None] when absent (or holding [None], for the keys read
    without a default) and otherwise hold a value of the type the response
    schema requires. *)
Record RawHit : Type := mkRawHit {
  h_article_id : PyValue;
  h_article_number : option string;
  h_article_text : option string;
  h_article_path : option string;
  h_score : option float;
  h_normativa_title : option string;
  h_normativa_id : option string;
  h_fecha_publicacion : option string;
  h_fecha_vigencia : option string;
  h_fecha_caducidad : option string;
  h_previous_version_id : option Z;
  h_next_version_id : option Z;
  h_context_path : list (gmap string string);
  h_embedding : option (list float)
}.

Record Metadata : Type := mkMetadata {
  has_embedding : bool;
  md_query : string;
  context_path_text : string
}.

Record ArticleResult : Type := mkArticleResult {
  article_id : string;
  article_number : string;
  article_text : string;
  article_path : string;
  score : float;
  normativa_title : string;
  normativa_id : string;
  fecha_publicacion : option string;
  fecha_vigencia : option string;
  fecha_caducidad : option string;
  previous_version_id : option string;
  next_version_id : option string;
  context_path : list (gmap string string);
  metadata : Metadata
}.

Record SemanticSearchResponse : Type := mkSemanticSearchResponse {
  ssr_query : string;
  results : list ArticleResult;
  total_results : Z;
  strategy_used : string;
  execution_time_ms : float
}.

(** [str(v)] for the values that pass [isinstance(v, int)]. *)
Definition str_article_id (v : PyValue) : string :=
  match v with
  | PyInt n => str_int n
  | PyBool true => "True"
  | PyBool false => "False"
  | _ => ""
  end.

(** [format_date(x) if x else None]. *)
Definition format_date_if (x : option string) : Result PyExc (option string) :=
  match x with
  | Some s => if truthy s then format_date (Some s) else Return None
  | None => Return None
  end.

(** [str(x) if x else None] for a node id. *)
Definition str_if (x : option Z) : option string :=
  match x with
  | Some n => if (n =? 0)%Z then None else Some (str_int n)
  | None => None
  end.

(** One turn of the [for result in raw_results] loop: the
    [ArticleResult] that is appended, or the [TypeError]. *)
Definition article_result (request : SemanticSearchRequest) (result : RawHit)
  : Result Exception ArticleResult :=
  let article_id := h_article_id result in
  if negb (isinstance_int article_id) then
    Raise (Uncaught (TypeError ("article_id must be int, got "
                                +:+ type_name article_id)))
  else
    (let article_text := or_empty (h_article_text result) in
     let article_path := or_empty (h_article_path result) in
     let raw_context_path := h_context_path result in
     let formatted_context :=
       if truthy article_path then article_path
       else format_context_path raw_context_path in
     let* publicacion := lift_exc Uncaught (format_date_if (h_fecha_publicacion result)) in
     let* vigencia := lift_exc Uncaught (format_date_if (h_fecha_vigencia result)) in
     let* caducidad := lift_exc Uncaught (format_date_if (h_fecha_caducidad result)) in
     Return {| article_id := str_article_id article_id;
               article_number := default "" (h_article_number result);
               article_text := article_text;
               article_path := article_path;
               score := default 0%float (h_score result);
               normativa_title := default "" (h_normativa_title result);
               normativa_id := default "" (h_normativa_id result);
               fecha_publicacion := publicacion;
               fecha_vigencia := vigencia;
               fecha_caducidad := caducidad;
               previous_version_id := str_if (h_previous_version_id result);
               next_version_id := str_if (h_next_version_id result);
               context_path := raw_context_path;
               metadata := {| has_embedding := negb (is_None (h_embedding result));
                              md_query := query request;
                              context_path_text := formatted_context |} |})%result.

Fixpoint article_results_loop (request : SemanticSearchRequest)
    (raw_results : list RawHit) (article_results : list ArticleResult)
  : Result Exception (list ArticleResult) :=
  match raw_results with
  | [] => Return article_results
  | result :: rest =>
      (let* r := article_result request result in
       article_results_loop request rest (article_results ++ [r]))%result
  end.

Section SemanticSearch.

(** The injected collaborators, not under [src/]: the embedding provider
    and the graph adapter. Either may raise. *)
Variable get_embedding : string -> Result PyExc (list float).
Variable vector_search : list float -> Z -> string -> Result PyExc (list RawHit).

(** [start_time] and [end_time] are the two readings of [time.time()]. *)
Definition semantic_search (request : SemanticSearchRequest)
    (start_time end_time : float)
  : Result Exception SemanticSearchResponse :=
  try_except
    (let* query_embedding :=
       try_except (get_embedding (query request))
         (fun e =>
            Raise (HTTPException HTTP_500_INTERNAL_SERVER_ERROR
                     {| error := "EmbeddingGenerationError";
                        message := "Failed to generate query embedding";
                        details := Some [("exception", exc_str e)] |})) in
     let* raw_results :=
       try_except (vector_search query_embedding (top_k request) (index_name request))
         (fun e =>
            Raise (HTTPException HTTP_500_INTERNAL_SERVER_ERROR
                     {| error := "DatabaseError";
                        message := "Failed to search vector database";
                        details := Some [("exception", exc_str e)] |})) in
     let* article_results := article_results_loop request raw_results [] in
     let execution_time_ms := ((end_time - start_time) * 1000)%float in
     Return {| ssr_query := query request;
               results := article_results;
               total_results := Z.of_nat (length article_results);
               strategy_used := "Vector Search";
               execution_time_ms := execution_time_ms |})%result
    (fun e =>
       match e with
       | HTTPException _ _ => Raise e
       | Uncaught e' =>
           Raise (HTTPException HTTP_500_INTERNAL_SERVER_ERROR
                    {| error := "InternalServerError";
                       message := "An unexpected error occurred";
                       details := Some [("exception", exc_str e')] |})
       end).

End SemanticSearch.

End WithStrMethods.

End ApiSearchEndpoints.

(** ** [src/indications/auth_endpoints.py] *)

Module AuthEndpoints.

(** A user row of the credential store. *)
Record User : Type := mkUser {
  id : string;
  username : string;
  password_hash : string;
  is_active : bool;
  available_tokens : Z;
  created_at : string
}.

Record LoginRequest : Type := mkLoginRequest {
  lr_username : string;
  lr_password : string
}.

Record TokenResponse : Type := mkTokenResponse {
  access_token : string;
  token_type : string;
  expires_in : Z;
  tr_user_id : string;
  tr_username : string;
  tr_available_tokens : Z
}.

Section Login.

(** The injected [UserRepository] over the database [DB], and the token
    issuer of [src.api.v1.auth]; none of them is under [src/]. *)
Context {DB : Type}.
Variable get_by_username : DB -> string -> option User.
Variable verify_password : User -> string -> bool.
Variable create_access_token : string -> string -> string.
Variable get_token_expiry_seconds : Z.

Definition login (request : LoginRequest) (user_repo : DB)
  : Result Exception TokenResponse :=
  match get_by_username user_repo (lr_username request) with
  | None =>
      Raise (HTTPException HTTP_401_UNAUTHORIZED
               (mkDetail "Unauthorized" "Invalid username or password" None))
  | Some user =>
      if negb (verify_password user (lr_password request)) then
        Raise (HTTPException HTTP_401_UNAUTHORIZED
                 (mkDetail "Unauthorized" "Invalid username or password" None))
      else if negb (is_active user) then
        Raise (HTTPException HTTP_401_UNAUTHORIZED
                 (mkDetail "Unauthorized" "Account is disabled" None))
      else
        let token := create_access_token (id user) (username user) in
        Return {| access_token := token;
                  token_type := "bearer";
                  expires_in := get_token_expiry_seconds;
                  tr_user_id := id user;
                  tr_username := username user;
                  tr_available_tokens := available_tokens user |}
  end.

End Login.

End AuthEndpoints.

(** ** [src/indications/chat_endpoints.py] *)

Module ChatEndpoints.

Record TokenPayload : Type := mkTokenPayload {
  user_id : string;
  tp_username : string
}.

Record ChatRequest : Type := mkChatRequest {
  req_message : string;
  req_conversation_id : option string;
  req_top_k : Z
}.

(** A citation of the chat service's result, and the service's result. *)
Record Citation : Type := mkCitation {
  c_index : Z;
  c_article_id : string;
  c_article_number : string;
  c_normativa_title : string;
  c_article_path : string;
  c_score : float
}.

Record ChatResult : Type := mkChatResult {
  r_response : string;
  r_conversation_id : string;
  r_citations : list Citation;
  r_execution_time_ms : float
}.

Record CitationResponse : Type := mkCitationResponse {
  index : Z;
  article_id : string;
  article_number : string;
  normativa_title : string;
  article_path : string;
  score : float
}.

Record ChatResponse : Type := mkChatResponse {
  response : string;
  conversation_id : string;
  citations : list CitationResponse;
  execution_time_ms : float
}.

(** The calls a handler makes to its collaborators, in order. *)
Inductive Call : Type :=
| GetTokenBalance (uid : string)
| GetConversationUserId (cid : string)
| Achat (query : string) (cid : option string) (top_k : Z) (uid : string)
| ConsumeTokens (uid : string) (amount : Z).

(** A handler runs against the database behind the repositories and
    leaves a log of its collaborator calls. *)
Record World (DB : Type) : Type := mkWorld {
  db : DB;
  calls : list Call
}.
Arguments mkWorld {DB} db calls.
Arguments db {DB} w.
Arguments calls {DB} w.

Definition Handler (DB E A : Type) : Type := World DB -> Result E A * World DB.

Definition ret {DB E A} (a : A) : Handler DB E A := fun w => (Return a, w).

Definition raise {DB E A} (e : E) : Handler DB E A := fun w => (Raise e, w).

Definition hbind {DB E A B} (m : Handler DB E A) (k : A -> Handler DB E B)
  : Handler DB E B :=
  fun w =>
    match m w with
    | (Return a, w') => k a w'
    | (Raise e, w') => (Raise e, w')
    end.

(** [try: body / except Exception as e: handler]. What the body did to the
    database before it raised stays done. *)
Definition try_except_h {DB E E' A} (body : Handler DB E A)
    (handler : E -> Handler DB E' A) : Handler DB E' A :=
  fun w =>
    match body w with
    | (Return a, w') => (Return a, w')
    | (Raise e, w') => handler e w'
    end.

Declare Scope handler_scope.
Delimit Scope handler_scope with handler.
Notation "'let*' x := m 'in' k" := (hbind m (fun x => k))
  (at level 10, x name, m at level 100, k at level 200) : handler_scope.

Definition citation_response (c : Citation) : CitationResponse :=
  {| index := c_index c;
     article_id := c_article_id c;
     article_number := c_article_number c;
     normativa_title := c_normativa_title c;
     article_path := c_article_path c;
     score := c_score c |}.

Section Chat.

(** The collaborators, none of them under [src/]: the user and
    conversation repositories over the database [DB] and the chat
    service. The chat service may raise, and may write to the database
    (it persists the conversation). *)
Context {DB : Type}.
Variable get_token_balance : DB -> string -> Z.
Variable consume_tokens : DB -> string -> Z -> bool * DB.
Variable get_conversation_user_id : DB -> string -> option string.
Variable achat :
  string -> option string -> Z -> string -> DB -> Result PyExc ChatResult * DB.

Definition repo_get_token_balance {E} (uid : string) : Handler DB E Z :=
  fun w =>
    (Return (get_token_balance (db w) uid),
     mkWorld (db w) (calls w ++ [GetTokenBalance uid])).

Definition repo_get_conversation_user_id {E} (cid : string)
  : Handler DB E (option string) :=
  fun w =>
    (Return (get_conversation_user_id (db w) cid),
     mkWorld (db w) (calls w ++ [GetConversationUserId cid])).

Definition repo_consume_tokens {E} (uid : string) (amount : Z)
  : Handler DB E bool :=
  fun w =>
    let (ok, db') := consume_tokens (db w) uid amount in
    (Return ok, mkWorld db' (calls w ++ [ConsumeTokens uid amount])).

Definition chat_service_achat (query : string) (cid : option string)
    (top_k : Z) (uid : string) : Handler DB PyExc ChatResult :=
  fun w =>
    let (r, db') := achat query cid top_k uid (db w) in
    (r, mkWorld db' (calls w ++ [Achat query cid top_k uid])).

(** The ownership check: [if request.conversation_id: ...]. *)
Definition verify_conversation_ownership (request : ChatRequest)
    (token : TokenPayload) : Handler DB Exception unit :=
  match req_conversation_id request with
  | None => ret tt
  | Some cid =>
      if truthy cid then
        (let* owner := repo_get_conversation_user_id cid in
         match owner with
         | None => ret tt
         | Some o =>
             if truthy o && negb (String.eqb o (user_id token)) then
               raise (HTTPException HTTP_404_NOT_FOUND
                        (mkDetail "ConversationNotFound"
                           ("Conversation '" +:+ cid +:+ "' not found") None))
             else ret tt
         end)%handler
      else ret tt
  end.

Definition chat (request : ChatRequest) (token : TokenPayload)
  : Handler DB Exception ChatResponse :=
  (let* balance := repo_get_token_balance (user_id token) in
   if (balance <=? 0)%Z then
     raise (HTTPException HTTP_402_PAYMENT_REQUIRED
              (mkDetail "InsufficientTokens"
                 "You have no remaining API tokens. Please contact an administrator."
                 None))
   else
     let* _ := verify_conversation_ownership request token in
     try_except_h
       (let* result := chat_service_achat (req_message request)
                         (req_conversation_id request) (req_top_k request)
                         (user_id token) in
        let* _ := repo_consume_tokens (user_id token) 1 in
        let citation_responses := map citation_response (r_citations result) in
        ret {| response := r_response result;
               conversation_id := r_conversation_id result;
               citations := citation_responses;
               execution_time_ms := r_execution_time_ms result |})
       (fun e =>
          raise (HTTPException HTTP_500_INTERNAL_SERVER_ERROR
                   (mkDetail "ChatProcessingError"
                      "Failed to process chat message"
                      (Some [("exception", exc_str e)])))))%handler.

End Chat.

(** *** Conversation endpoints *)

(** A stored message and a stored conversation; [datetime] is the type of
    their time stamps. *)
Record Message (datetime : Type) : Type := mkMessage {
  role : string;
  content : string;
  m_citations : list Citation;
  timestamp : datetime
}.
Arguments mkMessage {datetime} role content m_citations timestamp.
Arguments role {datetime} m.
Arguments content {datetime} m.
Arguments m_citations {datetime} m.
Arguments timestamp {datetime} m.

Record Conversation (datetime : Type) : Type := mkConversation {
  conv_id : string;
  messages : list (Message datetime);
  created_at : datetime;
  updated_at : datetime
}.
Arguments mkConversation {datetime} conv_id messages created_at updated_at.
Arguments conv_id {datetime} c.
Arguments messages {datetime} c.
Arguments created_at {datetime} c.
Arguments updated_at {datetime} c.

Record ConversationMessageResponse : Type := mkConversationMessageResponse {
  cm_role : string;
  cm_content : string;
  cm_citations : list CitationResponse;
  cm_timestamp : string
}.

Record ConversationResponse : Type := mkConversationResponse {
  cr_id : string;
  cr_messages : list ConversationMessageResponse;
  cr_created_at : string;
  cr_updated_at : string
}.

Record DeleteResponse : Type := mkDeleteResponse {
  success : bool;
  dr_message : string
}.

(** A row of [list_conversations], read by subscript. *)
Record ConversationRow : Type := mkConversationRow {
  row_id : string;
  row_created_at : string;
  row_updated_at : string;
  row_message_count : Z;
  row_preview : option string
}.

Record ConversationSummary : Type := mkConversationSummary {
  cs_id : string;
  cs_created_at : string;
  cs_updated_at : string;
  cs_message_count : Z;
  cs_preview : option string
}.

Record ConversationListResponse : Type := mkConversationListResponse {
  conversations : list ConversationSummary;
  total : Z
}.

Section Conversations.

(** The [ConversationRepository] over the database [DB], not under
    [src/], and [datetime.isoformat]. Deleting and clearing write to the
    database. *)
Context {DB datetime : Type}.
Variable repo_list_conversations : DB -> string -> list ConversationRow.
Variable repo_get_conversation : DB -> string -> string -> option (Conversation datetime).
Variable repo_delete_conversation : DB -> string -> string -> bool * DB.
Variable repo_clear_conversation : DB -> string -> string -> bool * DB.
Variable isoformat : datetime -> string.

Definition list_conversations (token : TokenPayload) (d : DB)
  : ConversationListResponse :=
  let conversations := repo_list_conversations d (user_id token) in
  {| conversations :=
       map (fun c => {| cs_id := row_id c;
                        cs_created_at := row_created_at c;
                        cs_updated_at := row_updated_at c;
                        cs_message_count := row_message_count c;
                        cs_preview := row_preview c |})
           conversations;
     total := Z.of_nat (length conversations) |}.

(** The [for msg in conversation.messages] loop of [get_conversation]. *)
Fixpoint message_responses_loop (msgs : list (Message datetime))
    (message_responses : list ConversationMessageResponse)
  : list ConversationMessageResponse :=
  match msgs with
  | [] => message_responses
  | msg :: rest =>
      let citation_responses := map citation_response (m_citations msg) in
      message_responses_loop rest
        (message_responses ++
         [ {| cm_role := role msg;
              cm_content := content msg;
              cm_citations := citation_responses;
              cm_timestamp := isoformat (timestamp msg) |} ])
  end.

Definition get_conversation (conversation_id : string) (token : TokenPayload)
    (d : DB) : Result Exception ConversationResponse :=
  match repo_get_conversation d conversation_id (user_id token) with
  | None =>
      Raise (HTTPException HTTP_404_NOT_FOUND
               (mkDetail "ConversationNotFound"
                  ("Conversation '" +:+ conversation_id +:+ "' not found") None))
  | Some conversation =>
      let message_responses := message_responses_loop (messages conversation) [] in
      Return {| cr_id := conv_id conversation;
                cr_messages := message_responses;
                cr_created_at := isoformat (created_at conversation);
                cr_updated_at := isoformat (updated_at conversation) |}
  end.

Definition delete_conversation (conversation_id : string) (token : TokenPayload)
    (d : DB) : Result Exception DeleteResponse * DB :=
  let (success, d') := repo_delete_conversation d conversation_id (user_id token) in
  if negb success then
    (Raise (HTTPException HTTP_404_NOT_FOUND
              (mkDetail "ConversationNotFound"
                 ("Conversation '" +:+ conversation_id +:+ "' not found") None)),
     d')
  else
    (Return {| success := true;
               dr_message := "Conversation '" +:+ conversation_id
                             +:+ "' deleted successfully" |},
     d').

Definition clear_conversation (conversation_id : string) (token : TokenPayload)
    (d : DB) : Result Exception DeleteResponse * DB :=
  let (success, d') := repo_clear_conversation d conversation_id (user_id token) in
  if negb success then
    (Raise (HTTPException HTTP_404_NOT_FOUND
              (mkDetail "ConversationNotFound"
                 ("Conversation '" +:+ conversation_id +:+ "' not found") None)),
     d')
  else
    (Return {| success := true;
               dr_message := "Conversation '" +:+ conversation_id
                             +:+ "' cleared successfully" |},
     d').

End Conversations.

End ChatEndpoints.

(** ** [src/indications/auth_endpoints.py]: the current user *)

Module AuthEndpointsMe.

Record UserInfoResponse : Type := mkUserInfoResponse {
  ui_id : string;
  ui_username : string;
  ui_available_tokens : Z;
  ui_created_at : string
}.

Section GetCurrentUser.

(** [UserRepository.get_by_id], not under [src/], and
    [datetime.isoformat] on the stored creation time. *)
Context {DB : Type}.
Variable get_by_id : DB -> string -> option AuthEndpoints.User.
Variable isoformat : string -> string.

Definition get_current_user (token_payload : ChatEndpoints.TokenPayload)
    (user_repo : DB) : Result Exception UserInfoResponse :=
  match get_by_id user_repo (ChatEndpoints.user_id token_payload) with
  | None =>
      Raise (HTTPException HTTP_401_UNAUTHORIZED
               (mkDetail "Unauthorized" "User not found" None))
  | Some user =>
      Return {| ui_id := AuthEndpoints.id user;
                ui_username := AuthEndpoints.username user;
                ui_available_tokens := AuthEndpoints.available_tokens user;
                ui_created_at := isoformat (AuthEndpoints.created_at user) |}
  end.

End GetCurrentUser.

End AuthEndpointsMe.

Module AE := ApiArticleEndpoints.
Module SE := ApiSearchEndpoints.
Module AU := AuthEndpoints.
Module CE := ChatEndpoints.

(** ** The credential store *)

Module MemoryStore.

(** Modelled from the spec: the credential store ([UserRepository] and
    [ConversationRepository] of [src.infrastructure.sqlite]), which is
    not under [src/]. It persists users (id, username, password hash,
    active flag, token balance) and the owner of every conversation, and
    exposes lookup by username, password verification, reading and
    consuming the token balance (a decrement of a non-negative counter)
    and the owner of a conversation. *)
Record Store : Type := mkStore {
  users : gmap string AU.User;
  conversations : gmap string string
}.

(** Modelled from the spec: lookup-by-username; usernames are unique. *)
Definition get_by_username (st : Store) (name : string) : option AU.User :=
  snd <$> List.find (fun row => String.eqb (AU.username (snd row)) name)
            (map_to_list (users st)).

(** Modelled from the spec: verify-password; the hash stands in for the
    store's password hashing, which the specification leaves open. *)
Definition hash_password (password : string) : string := "hash$" +:+ password.

Definition verify_password (user : AU.User) (password : string) : bool :=
  String.eqb (AU.password_hash user) (hash_password password).

(** Modelled from the spec: the token balance of a user; a user the store
    does not know has none. *)
Definition get_token_balance (st : Store) (uid : string) : Z :=
  match users st !! uid with
  | Some user => AU.available_tokens user
  | None => 0
  end.

Definition with_tokens (user : AU.User) (tokens : Z) : AU.User :=
  {| AU.id := AU.id user;
     AU.username := AU.username user;
     AU.password_hash := AU.password_hash user;
     AU.is_active := AU.is_active user;
     AU.available_tokens := tokens;
     AU.created_at := AU.created_at user |}.

(** Modelled from the spec: token consumption decrements the balance,
    which never goes below zero. *)
Definition consume_tokens (st : Store) (uid : string) (amount : Z) : bool * Store :=
  match users st !! uid with
  | Some user =>
      if (amount <=? AU.available_tokens user)%Z then
        (true,
         {| users := <[uid := with_tokens user (AU.available_tokens user - amount)]>
                       (users st);
            conversations := conversations st |})
      else (false, st)
  | None => (false, st)
  end.

(** Modelled from the spec: the owner of a conversation, if it exists. *)
Definition get_conversation_user_id (st : Store) (cid : string) : option string :=
  conversations st !! cid.

(** Modelled from the spec: a chat orchestrator that answers, creating
    the conversation when the id it is given is absent or unknown, and
    one whose generation fails. Neither touches the users. *)
Definition achat_answers (query : string) (cid : option string) (top_k : Z)
    (uid : string) (st : Store) : Result PyExc CE.ChatResult * Store :=
  let conversation := from_option (fun c => c) "conv-new" cid in
  (Return {| CE.r_response := "respuesta a: " +:+ query;
             CE.r_conversation_id := conversation;
             CE.r_citations := [];
             CE.r_execution_time_ms := 12.5%float |},
   {| users := users st;
      conversations := <[conversation := uid]> (conversations st) |}).

Definition achat_fails (query : string) (cid : option string) (top_k : Z)
    (uid : string) (st : Store) : Result PyExc CE.ChatResult * Store :=
  (Raise (OtherException "LLM unavailable"), st).

Definition alice : AU.User :=
  {| AU.id := "u-alice"; AU.username := "alice";
     AU.password_hash := hash_password "correct horse";
     AU.is_active := true; AU.available_tokens := 3;
     AU.created_at := "2024-01-15T10:30:00" |}.

Definition bob : AU.User :=
  {| AU.id := "u-bob"; AU.username := "bob";
     AU.password_hash := hash_password "battery staple";
     AU.is_active := false; AU.available_tokens := 0;
     AU.created_at := "2024-01-16T09:00:00" |}.

Definition store0 : Store :=
  {| users := {[ "u-alice" := alice; "u-bob" := bob ]};
     conversations := {[ "conv-bob" := "u-bob"; "conv-alice" := "u-alice" ]} |}.

End MemoryStore.

Module MS := MemoryStore.

(** * Vocabulary of the properties *)

(** Every character is one of the ten decimal digits. *)
Definition is_digit (c : ascii) : bool :=
  let n := nat_of_ascii c in (48 <=? n)%nat && (n <=? 57)%nat.

Fixpoint is_numeric (s : string) : bool :=
  match s with
  | EmptyString => true
  | String c r => is_digit c && is_numeric r
  end.

(** The date with a hyphen after its 4th and after its 6th character. *)
Definition hyphenated (s : string) : string :=
  substring 0 4 s +:+ "-" +:+ substring 4 2 s +:+ "-" +:+ substring 6 2 s.

(** Splits a string whose length is a known numeral into its characters. *)
Ltac explode s H :=
  repeat
    match type of H with
    | String.length ?t = _ =>
        first [ is_var t | fail 2 ];
        destruct t; simpl in H; [ try discriminate H | try discriminate H ];
        try apply Nat.succ_inj in H
    end.

(** A context-path entry with its two keys. *)
Definition entry (type name : string) : gmap string string :=
  {[ "type" := type; "name" := name ]}.

(** The pipeline as the specification words it: drop the entries whose
    type is ROOT or CONTENT, reverse, title-case the all-uppercase names,
    join as "Type Name" with ", ". *)
Definition dropped_as_worded (item : gmap string string) : bool :=
  String.eqb (SE.get_str item "type") "ROOT"
  || String.eqb (SE.get_str item "type") "CONTENT".

Definition name_as_worded `{StrMethods} (item : gmap string string) : string :=
  let name := SE.get_str item "name" in
  if isupper name then title name else name.

Definition text_as_worded `{StrMethods} (item : gmap string string) : string :=
  SE.get_str item "type" +:+ " " +:+ name_as_worded item.

Definition format_context_path_as_worded `{StrMethods}
    (context_path : list (gmap string string)) : string :=
  join ", "
    (map text_as_worded
       (rev (List.filter (fun item => negb (dropped_as_worded item)) context_path))).

(** The pipeline the code runs: the type is compared with ROOT and
    CONTENT after upper-casing, and is capitalized in the output; a name is
    put in title case when it is all-uppercase and has more than one
    character. *)
Definition shown_name `{StrMethods} (item : gmap string string) : string :=
  let name := SE.get_str item "name" in
  if isupper name && (1 <? len name)%Z then title name else name.

Definition text_of `{StrMethods} (item : gmap string string) : string :=
  capitalize (SE.get_str item "type") +:+ " " +:+ shown_name item.

Definition breadcrumb `{StrMethods} (context_path : list (gmap string string))
  : string :=
  join ", " (map text_of (rev (List.filter SE.keeps context_path))).

(** What [format_date] returns. *)
Definition formatted (date_str : option string) : option string :=
  match date_str with
  | None => None
  | Some s => if (String.length s =? 8)%nat then Some (hyphenated s) else Some s
  end.

(** The response entry of one version row. *)
Definition version_info (v : AE.VersionRow) : AE.ArticleVersionInfo :=
  {| AE.node_id := from_option str_int "" (AE.v_article_id v);
     AE.article_number := default "" (AE.v_article_number v);
     AE.fecha_vigencia := formatted (AE.v_validity_start v);
     AE.fecha_caducidad := formatted (AE.v_validity_end v);
     AE.is_current_version := is_None (AE.v_validity_end v);
     AE.article_text := or_empty (AE.v_article_text v) |}.

Definition version_1978 : AE.VersionRow :=
  {| AE.v_article_id := Some 55;
     AE.v_article_number := Some "Articulo 14";
     AE.v_validity_start := Some "19781229";
     AE.v_validity_end := Some "19920828";
     AE.v_article_text := Some "Version original";
     AE.v_normativa_title := Some "Constitucion Espanola de 1978" |}.

Definition version_1992 : AE.VersionRow :=
  {| AE.v_article_id := Some 56;
     AE.v_article_number := Some "Articulo 14";
     AE.v_validity_start := Some "19920828";
     AE.v_validity_end := None;
     AE.v_article_text := Some "Version modificada";
     AE.v_normativa_title := Some "Constitucion Espanola de 1978" |}.

Definition two_versions (node_id : Z) : list AE.VersionRow :=
  [version_1978; version_1992].

(** [format_date(x) if x else None], as a value. *)
Definition formatted_if (x : option string) : option string :=
  match x with
  | Some s => if truthy s then formatted (Some s) else None
  | None => None
  end.

(** The [ArticleResult] built from a hit whose [article_id] passes the
    type check. *)
Definition article_result_of `{StrMethods} (request : SE.SemanticSearchRequest)
    (result : SE.RawHit) : SE.ArticleResult :=
  {| SE.article_id := SE.str_article_id (SE.h_article_id result);
     SE.article_number := default "" (SE.h_article_number result);
     SE.article_text := or_empty (SE.h_article_text result);
     SE.article_path := or_empty (SE.h_article_path result);
     SE.score := default 0%float (SE.h_score result);
     SE.normativa_title := default "" (SE.h_normativa_title result);
     SE.normativa_id := default "" (SE.h_normativa_id result);
     SE.fecha_publicacion := formatted_if (SE.h_fecha_publicacion result);
     SE.fecha_vigencia := formatted_if (SE.h_fecha_vigencia result);
     SE.fecha_caducidad := formatted_if (SE.h_fecha_caducidad result);
     SE.previous_version_id := SE.str_if (SE.h_previous_version_id result);
     SE.next_version_id := SE.str_if (SE.h_next_version_id result);
     SE.context_path := SE.h_context_path result;
     SE.metadata :=
       {| SE.has_embedding := negb (is_None (SE.h_embedding result));
          SE.md_query := SE.query request;
          SE.context_path_text :=
            if truthy (or_empty (SE.h_article_path result))
            then or_empty (SE.h_article_path result)
            else SE.format_context_path (SE.h_context_path result) |} |}.

Definition has_int_id (result : SE.RawHit) : bool :=
  isinstance_int (SE.h_article_id result).

(** The first hit, if any, whose [article_id] is not an [int]. *)
Definition first_ill_typed (hits : list SE.RawHit) : option SE.RawHit :=
  List.find (fun result => negb (has_int_id result)) hits.

Definition type_error_of (result : SE.RawHit) : PyExc :=
  TypeError ("article_id must be int, got " +:+ type_name (SE.h_article_id result)).

Definition hit_123 : SE.RawHit :=
  {| SE.h_article_id := PyInt 123;
     SE.h_article_number := Some "Articulo 20";
     SE.h_article_text := Some "Se reconocen y protegen los derechos";
     SE.h_article_path := None;
     SE.h_score := Some 0.875%float;
     SE.h_normativa_title := Some "Constitucion Espanola de 1978";
     SE.h_normativa_id := Some "const_1978";
     SE.h_fecha_publicacion := Some "19781229";
     SE.h_fecha_vigencia := Some "19781229";
     SE.h_fecha_caducidad := None;
     SE.h_previous_version_id := None;
     SE.h_next_version_id := Some 456;
     SE.h_context_path := [entry "TITULO" "I"; entry "CAPITULO" "SEGUNDO"];
     SE.h_embedding := None |}.


Definition stub_embedding (text : string) : Result PyExc (list float) :=
  Return [0.5%float; 0.25%float].

Definition stub_vector_search (hits : list SE.RawHit)
    (query_embedding : list float) (top_k : Z) (index_name : string)
  : Result PyExc (list SE.RawHit) :=
  Return hits.

Definition libertad : SE.SemanticSearchRequest :=
  {| SE.query := "libertad de expresion";
     SE.top_k := 5;
     SE.index_name := "article_embeddings" |}.

(** The two 401 responses of [login]. *)
Definition invalid_credentials : Exception :=
  HTTPException 401 (mkDetail "Unauthorized" "Invalid username or password" None).

Definition account_disabled : Exception :=
  HTTPException 401 (mkDetail "Unauthorized" "Account is disabled" None).

Definition stub_access_token (uid username : string) : string :=
  "token." +:+ uid +:+ "." +:+ username.

Definition login_as (name password : string) : AU.LoginRequest :=
  {| AU.lr_username := name; AU.lr_password := password |}.

(** The error responses of [chat]. *)
Definition payment_required : Exception :=
  HTTPException 402
    (mkDetail "InsufficientTokens"
       "You have no remaining API tokens. Please contact an administrator." None).

Definition not_found (cid : string) : Exception :=
  HTTPException 404
    (mkDetail "ConversationNotFound" ("Conversation '" +:+ cid +:+ "' not found") None).

Definition processing_error (e : PyExc) : Exception :=
  HTTPException 500
    (mkDetail "ChatProcessingError" "Failed to process chat message"
       (Some [("exception", exc_str e)])).

(** The response built from the chat service's result. *)
Definition chat_response (result : CE.ChatResult) : CE.ChatResponse :=
  {| CE.response := CE.r_response result;
     CE.conversation_id := CE.r_conversation_id result;
     CE.citations := map CE.citation_response (CE.r_citations result);
     CE.execution_time_ms := CE.r_execution_time_ms result |}.

(** The calls of the ownership check. *)
Definition ownership_calls (request : CE.ChatRequest) : list CE.Call :=
  match CE.req_conversation_id request with
  | Some cid => if truthy cid then [CE.GetConversationUserId cid] else []
  | None => []
  end.

Definition is_achat (c : CE.Call) : bool :=
  match c with CE.Achat _ _ _ _ => true | _ => false end.

Definition is_consume (c : CE.Call) : bool :=
  match c with CE.ConsumeTokens _ _ => true | _ => false end.

(** The request names a conversation that has an owner other than the
    caller. *)
Definition owned_by_another {DB : Type}
    (get_conversation_user_id : DB -> string -> option string)
    (d : DB) (request : CE.ChatRequest) (token : CE.TokenPayload) : bool :=
  match CE.req_conversation_id request with
  | Some cid =>
      truthy cid &&
      match get_conversation_user_id d cid with
      | Some owner => truthy owner && negb (String.eqb owner (CE.user_id token))
      | None => false
      end
  | None => false
  end.

(** The chat service's answer to the request. *)
Definition achat_of {DB : Type}
    (achat : string -> option string -> Z -> string -> DB ->
             Result PyExc CE.ChatResult * DB)
    (request : CE.ChatRequest) (token : CE.TokenPayload) (d : DB)
  : Result PyExc CE.ChatResult * DB :=
  achat (CE.req_message request) (CE.req_conversation_id request)
    (CE.req_top_k request) (CE.user_id token) d.

Definition achat_call (request : CE.ChatRequest) (token : CE.TokenPayload) : CE.Call :=
  CE.Achat (CE.req_message request) (CE.req_conversation_id request)
    (CE.req_top_k request) (CE.user_id token).

(** The result of an answer of the chat service that returned one. *)
Definition fst_result {DB : Type} (answer : Result PyExc CE.ChatResult * DB)
  : CE.ChatResult :=
  match fst answer with
  | Return result => result
  | Raise _ => CE.mkChatResult "" "" [] 0%float
  end.

(** The handler over the in-memory store. *)
Definition chat_on (achat : string -> option string -> Z -> string -> MS.Store ->
                            Result PyExc CE.ChatResult * MS.Store) :=
  CE.chat MS.get_token_balance MS.consume_tokens MS.get_conversation_user_id achat.

Definition world0 : CE.World MS.Store := CE.mkWorld MS.store0 [].

Definition alice_token : CE.TokenPayload :=
  {| CE.user_id := "u-alice"; CE.tp_username := "alice" |}.

Definition bob_token : CE.TokenPayload :=
  {| CE.user_id := "u-bob"; CE.tp_username := "bob" |}.

Definition ask (cid : option string) : CE.ChatRequest :=
  {| CE.req_message := "que dice el articulo 14";
     CE.req_conversation_id := cid;
     CE.req_top_k := 5 |}.

(** ** Vocabulary of the further properties *)

(** The date read back from its hyphenated form. *)
Definition unhyphenated (r : string) : string :=
  substring 0 4 r +:+ substring 5 2 r +:+ substring 8 2 r.

Fixpoint all_space `{StrMethods} (s : string) : bool :=
  match s with
  | EmptyString => true
  | String c r => is_space_char c && all_space r
  end.

Definition first_char (s : string) : option ascii :=
  match s with
  | EmptyString => None
  | String c _ => Some c
  end.

Fixpoint last_char (s : string) : option ascii :=
  match s with
  | EmptyString => None
  | String c EmptyString => Some c
  | String _ r => last_char r
  end.

(** The detail built from an article row. *)
Definition detail_of (row : AE.ArticleRow) : AE.ArticleDetailResponse :=
  {| AE.ad_node_id := from_option str_int "" (AE.a_node_id row);
     AE.ad_article_number := default "" (AE.a_article_number row);
     AE.ad_article_text := or_empty (AE.a_article_text row);
     AE.ad_article_path := or_empty (AE.a_article_path row);
     AE.ad_normativa_title := default "" (AE.a_normativa_title row);
     AE.ad_normativa_id := default "" (AE.a_normativa_id row);
     AE.ad_fecha_publicacion := formatted (AE.a_fecha_publicacion row);
     AE.ad_fecha_vigencia := formatted (AE.a_fecha_vigencia row);
     AE.ad_fecha_caducidad := formatted (AE.a_fecha_caducidad row);
     AE.ad_previous_version_id := AE.str_if (AE.a_previous_version_id row);
     AE.ad_next_version_id := AE.str_if (AE.a_next_version_id row);
     AE.ad_context_path := AE.a_context_path row |}.


Definition article_14 : AE.ArticleRow :=
  {| AE.a_node_id := Some 55;
     AE.a_article_number := Some "Articulo 14";
     AE.a_article_text := Some "Los espanoles son iguales ante la ley";
     AE.a_article_path := Some "Titulo I, Capitulo Segundo";
     AE.a_normativa_title := Some "Constitucion Espanola de 1978";
     AE.a_normativa_id := Some "const_1978";
     AE.a_fecha_publicacion := Some "19781229";
     AE.a_fecha_vigencia := Some "";
     AE.a_fecha_caducidad := None;
     AE.a_previous_version_id := Some 0;
     AE.a_next_version_id := Some 56;
     AE.a_context_path := [entry "Titulo" "I"] |}.

Definition only_article_55 (node_id : Z) : option AE.ArticleRow :=
  if (node_id =? 55)%Z then Some article_14 else None.

Definition versions_of_55 (node_id : Z) : list AE.VersionRow :=
  if (node_id =? 55)%Z then [version_1978; version_1992] else [].

(** The three error tags of [semantic_search]. *)
Definition search_error_tags : list string :=
  ["EmbeddingGenerationError"; "DatabaseError"; "InternalServerError"].

Definition failing_embedding (text : string) : Result PyExc (list float) :=
  Raise (OtherException "quota exceeded").

Definition failing_vector_search (query_embedding : list float) (top_k : Z)
    (index_name : string) : Result PyExc (list SE.RawHit) :=
  Raise (OtherException "connection refused").

Definition hit_blank_dates : SE.RawHit :=
  {| SE.h_article_id := PyInt 7;
     SE.h_article_number := Some "Articulo 1";
     SE.h_article_text := Some "Texto";
     SE.h_article_path := Some "Titulo Preliminar";
     SE.h_score := Some 0.5%float;
     SE.h_normativa_title := Some "Ley";
     SE.h_normativa_id := Some "ley_1";
     SE.h_fecha_publicacion := Some "";
     SE.h_fecha_vigencia := Some "20200101";
     SE.h_fecha_caducidad := None;
     SE.h_previous_version_id := Some 0;
     SE.h_next_version_id := Some 8;
     SE.h_context_path := [entry "TITULO" "PRELIMINAR"];
     SE.h_embedding := Some [0.5%float] |}.

Module ME := AuthEndpointsMe.

(** Modelled from the spec: lookup-by-id of the credential store, whose
    users are kept by id. *)
Definition store_get_by_id (st : MS.Store) (uid : string) : option AU.User :=
  MS.users st !! uid.

(** A stand-in for [datetime.isoformat] on stored time stamps. *)
Definition stub_isoformat (stamp : string) : string := stamp.

(** The 401 of [get_current_user]. *)
Definition user_not_found : Exception :=
  HTTPException 401 (mkDetail "Unauthorized" "User not found" None).

Definition is_return {E A : Type} (r : Result E A) : bool :=
  match r with
  | Return _ => true
  | Raise _ => false
  end.

(** One caller sending requests one after the other: the answers, and the
    world the last request leaves. *)
Fixpoint chat_session {DB : Type}
    (chat : CE.ChatRequest -> CE.TokenPayload ->
            CE.Handler DB Exception CE.ChatResponse)
    (requests : list CE.ChatRequest) (token : CE.TokenPayload) (w : CE.World DB)
  : list (Result Exception CE.ChatResponse) * CE.World DB :=
  match requests with
  | [] => ([], w)
  | request :: rest =>
      let (answer, w') := chat request token w in
      let (answers, w'') := chat_session chat rest token w' in
      (answer :: answers, w'')
  end.

(** The number of requests that were answered. *)
Definition successes {E A : Type} (answers : list (Result E A)) : Z :=
  Z.of_nat (length (List.filter is_return answers)).

(** The response entry of one stored message. *)
Definition message_response_of {datetime : Type} (isoformat : datetime -> string)
    (msg : CE.Message datetime) : CE.ConversationMessageResponse :=
  {| CE.cm_role := CE.role msg;
     CE.cm_content := CE.content msg;
     CE.cm_citations := map CE.citation_response (CE.m_citations msg);
     CE.cm_timestamp := isoformat (CE.timestamp msg) |}.

(** Modelled from the spec: a conversation repository that gives a
    conversation, deletes it or clears it for its owner only; here the
    store keeps the owner of each conversation, and the conversation read
    back has no messages. *)
Definition store_get_conversation (st : MS.Store) (cid uid : string)
  : option (CE.Conversation string) :=
  match MS.conversations st !! cid with
  | Some owner =>
      if String.eqb owner uid
      then Some (CE.mkConversation cid [] "2024-01-15T10:30:00" "2024-01-15T10:30:05")
      else None
  | None => None
  end.

Definition store_delete_conversation (st : MS.Store) (cid uid : string)
  : bool * MS.Store :=
  match MS.conversations st !! cid with
  | Some owner =>
      if String.eqb owner uid
      then (true, {| MS.users := MS.users st;
                     MS.conversations := delete cid (MS.conversations st) |})
      else (false, st)
  | None => (false, st)
  end.

Definition store_clear_conversation (st : MS.Store) (cid uid : string)
  : bool * MS.Store :=
  match MS.conversations st !! cid with
  | Some owner => (String.eqb owner uid, st)
  | None => (false, st)
  end.

Definition sample_citation : CE.Citation :=
  {| CE.c_index := 1;
     CE.c_article_id := "123";
     CE.c_article_number := "Articulo 14";
     CE.c_normativa_title := "Constitucion Espanola de 1978";
     CE.c_article_path := "Titulo I";
     CE.c_score := 0.875%float |}.

Definition sample_conversation : CE.Conversation string :=
  CE.mkConversation "conv-alice"
    [ CE.mkMessage "user" "que dice el articulo 14" [] "2024-01-15T10:30:00";
      CE.mkMessage "assistant" "El articulo 14 establece la igualdad [1]."
        [sample_citation] "2024-01-15T10:30:05" ]
    "2024-01-15T10:30:00" "2024-01-15T10:30:05".

Definition sample_get_conversation (st : MS.Store) (cid uid : string)
  : option (CE.Conversation string) :=
  if String.eqb cid "conv-alice" && String.eqb uid "u-alice"
  then Some sample_conversation else None.

(** * Properties *)

(** ** [format_date] *)

Lemma format_date_copies_agree : SE.format_date = AE.format_date.
Proof. reflexivity. Qed.

Lemma len_eq_8 (s : string) : (len s =? 8)%Z = true <-> String.length s = 8%nat.
Proof. unfold len. rewrite Z.eqb_eq. lia. Qed.

Lemma format_date_try_returns (s : string) :
  AE.format_date_try s = Return (hyphenated s).
Proof. reflexivity. Qed.

Lemma format_date_length_8 (s : string) :
  String.length s = 8%nat -> AE.format_date (Some s) = Return (Some (hyphenated s)).
Proof.
  intros H. unfold AE.format_date.
  assert (Ht : truthy s = true) by (destruct s; [discriminate H | reflexivity]).
  apply len_eq_8 in H. rewrite Ht, H. reflexivity.
Qed.

Lemma format_date_other_length (s : string) :
  String.length s <> 8%nat -> AE.format_date (Some s) = Return (Some s).
Proof.
  intros H. unfold AE.format_date.
  destruct (len s =? 8)%Z eqn:E.
  - apply len_eq_8 in E. contradiction.
  - now rewrite orb_true_r.
Qed.

Lemma hyphenated_parts (yyyy mm dd : string) :
  String.length yyyy = 4%nat -> String.length mm = 2%nat ->
  String.length dd = 2%nat ->
  hyphenated (yyyy +:+ mm +:+ dd) = yyyy +:+ "-" +:+ mm +:+ "-" +:+ dd.
Proof.
  intros Hy Hm Hd.
  explode yyyy Hy. explode mm Hm. explode dd Hd. reflexivity.
Qed.

Lemma length_append (a b : string) :
  String.length (a +:+ b) = (String.length a + String.length b)%nat.
Proof. induction a as [|c a IH]; simpl; [reflexivity | now rewrite IH]. Qed.

Lemma hyphenated_length (s : string) :
  String.length s = 8%nat -> String.length (hyphenated s) = 10%nat.
Proof. intros H. explode s H. reflexivity. Qed.

(** C6: an 8-character numeric string [YYYYMMDD] is formatted as
    [YYYY-MM-DD], the hyphens going after the 4th and the 6th character;
    a string whose length is not 8, the empty string and an absent value
    come back unchanged. Both copies of [format_date] are the same
    function. *)
Theorem format_date_contract :
  (forall yyyy mm dd : string,
      String.length yyyy = 4%nat -> String.length mm = 2%nat ->
      String.length dd = 2%nat ->
      is_numeric (yyyy +:+ mm +:+ dd) = true ->
      AE.format_date (Some (yyyy +:+ mm +:+ dd))
      = Return (Some (yyyy +:+ "-" +:+ mm +:+ "-" +:+ dd)))
  /\ (forall s : string,
         String.length s <> 8%nat -> AE.format_date (Some s) = Return (Some s))
  /\ AE.format_date (Some "") = Return (Some "")
  /\ AE.format_date None = Return None
  /\ SE.format_date = AE.format_date.
Proof.
  repeat split.
  - intros yyyy mm dd Hy Hm Hd _.
    rewrite format_date_length_8.
    + now rewrite hyphenated_parts.
    + rewrite !length_append. lia.
  - apply format_date_other_length.
Qed.

Lemma format_date_contract_witness :
  AE.format_date (Some ("1987" +:+ "11" +:+ "23")) = Return (Some "1987-11-23")
  /\ AE.format_date (Some "1987-11-23") = Return (Some "1987-11-23").
Proof.
  destruct format_date_contract as (Hdate & Hother & _).
  split.
  - apply (Hdate "1987" "11" "23"); reflexivity.
  - apply (Hother "1987-11-23"). simpl. lia.
Defined.

(** C9: [format_date] reformats every 8-character string, digits or not,
    into [s[0:4]-s[4:6]-s[6:8]]: its [try] block returns for every string
    and never raises, so the [except (ValueError, IndexError)] branch is
    never taken, and the result (10 characters) is never the input. *)
Theorem format_date_reformats_any_8_characters :
  (forall s : string, exists r : string, AE.format_date_try s = Return r)
  /\ (forall s : string,
         String.length s = 8%nat ->
         AE.format_date (Some s) = Return (Some (hyphenated s))
         /\ AE.format_date (Some s) <> Return (Some s))
  /\ AE.format_date (Some "abcdefgh") = Return (Some "abcd-ef-gh")
  /\ SE.format_date = AE.format_date.
Proof.
  repeat split.
  - intros s. exists (hyphenated s). apply format_date_try_returns.
  - now apply format_date_length_8.
  - rewrite format_date_length_8 by assumption.
    intros E. injection E as E.
    apply (f_equal String.length) in E.
    rewrite hyphenated_length in E by assumption. lia.
Qed.

Lemma format_date_reformats_any_8_characters_witness :
  AE.format_date (Some "12ab34cd") = Return (Some "12ab-34-cd")
  /\ AE.format_date (Some "12ab34cd") <> Return (Some "12ab34cd").
Proof.
  destruct format_date_reformats_any_8_characters as (_ & H & _).
  apply (H "12ab34cd"). reflexivity.
Defined.

(** ** [format_context_path] *)

Lemma fold_left_append_map {A B} (f : A -> B) (l : list A) (acc : list B) :
  fold_left (fun (acc : list B) x => (acc ++ [f x])%list) l acc
  = (acc ++ map f l)%list.
Proof.
  revert acc. induction l as [|x l IH]; intros acc; simpl.
  - now rewrite app_nil_r.
  - rewrite IH, <- app_assoc. reflexivity.
Qed.

Section FormatContextPath.

Context {str_methods : StrMethods}.

Lemma format_context_path_breadcrumb (context_path : list (gmap string string)) :
  SE.format_context_path context_path = breadcrumb context_path.
Proof.
  unfold SE.format_context_path, breadcrumb.
  destruct context_path as [|item rest]; [reflexivity|].
  destruct (List.filter SE.keeps (item :: rest)) as [|kept others]; [reflexivity|].
  rewrite fold_left_append_map. reflexivity.
Qed.

(** C7, as the code has it: the breadcrumb drops every entry whose type
    is ROOT or CONTENT in any letter case, reverses the rest to
    leaf-to-root order, writes each entry as its capitalized type, a space
    and its name, a name that is all-uppercase and longer than one
    character being put in title case, and joins the entries with ", ";
    an empty path and a path whose entries are all dropped give the empty
    string. *)
Theorem format_context_path_pipeline (context_path : list (gmap string string)) :
  SE.format_context_path context_path
  = join ", " (map text_of (rev (List.filter SE.keeps context_path)))
  /\ SE.format_context_path [] = ""
  /\ (forallb (fun item => negb (SE.keeps item)) context_path = true ->
      SE.format_context_path context_path = "")
  /\ (forall item,
         SE.keeps item
         = negb (String.eqb (upper (SE.get_str item "type")) "ROOT"
                 || String.eqb (upper (SE.get_str item "type")) "CONTENT"))
  /\ (forall item,
         text_of item
         = capitalize (SE.get_str item "type") +:+ " "
           +:+ (if isupper (SE.get_str item "name")
                   && (1 <? len (SE.get_str item "name"))%Z
                then title (SE.get_str item "name")
                else SE.get_str item "name")).
Proof.
  split; [apply format_context_path_breadcrumb | split; [reflexivity|]].
  split; [|split; reflexivity].
  intros Hall. rewrite format_context_path_breadcrumb. unfold breadcrumb.
  replace (List.filter SE.keeps context_path) with (@nil (gmap string string));
    [reflexivity|].
  induction context_path as [|item rest IH]; [reflexivity|].
  simpl in Hall |- *. apply andb_prop in Hall as [Hd Hrest].
  destruct (SE.keeps item); [discriminate Hd | now apply IH].
Qed.

End FormatContextPath.

(** The examples run the functions on ASCII strings. *)
#[global] Existing Instance ascii_str.

Lemma format_context_path_pipeline_witness :
  SE.format_context_path [entry "ROOT" "BOE"; entry "content" "x"] = "".
Proof.
  apply (format_context_path_pipeline
           [entry "ROOT" "BOE"; entry "content" "x"]).
  vm_compute. reflexivity.
Defined.

(** C7, as the specification words it, fails: the type "TITULO" comes out
    capitalized and the lower-case type "content" is dropped as well. *)
Lemma format_context_path_not_as_worded :
  SE.format_context_path [entry "TITULO" "I"; entry "CAPITULO" "SEGUNDO"]
  = "Capitulo Segundo, Titulo I"
  /\ format_context_path_as_worded [entry "TITULO" "I"; entry "CAPITULO" "SEGUNDO"]
     = "CAPITULO Segundo, TITULO I"
  /\ SE.format_context_path [entry "Libro" "I"; entry "content" "x"] = "Libro I"
  /\ format_context_path_as_worded [entry "Libro" "I"; entry "content" "x"]
     = "content x, Libro I"
  /\ ~ (forall p, SE.format_context_path p = format_context_path_as_worded p).
Proof.
  repeat split; try (vm_compute; reflexivity).
  intros H. specialize (H [entry "TITULO" "I"]). vm_compute in H. discriminate H.
Qed.

(** ** [get_article_versions] *)

Lemma format_date_formatted (date_str : option string) :
  AE.format_date date_str = Return (formatted date_str).
Proof.
  destruct date_str as [s|]; [|reflexivity]. simpl formatted.
  destruct (Nat.eqb_spec (String.length s) 8) as [E|E].
  - now apply format_date_length_8.
  - now apply format_date_other_length.
Qed.

Lemma version_infos_loop_map (vs : list AE.VersionRow)
    (acc : list AE.ArticleVersionInfo) :
  AE.version_infos_loop vs acc = Return (acc ++ map version_info vs)%list.
Proof.
  revert acc. induction vs as [|v vs IH]; intros acc; simpl.
  - now rewrite app_nil_r.
  - rewrite !format_date_formatted. simpl.
    rewrite IH, <- app_assoc. reflexivity.
Qed.

Lemma count_current (vs : list AE.VersionRow) :
  List.filter AE.is_current_version (map version_info vs)
  = map version_info
      (List.filter (fun v => is_None (AE.v_validity_end v)) vs).
Proof.
  induction vs as [|v vs IH]; simpl; [reflexivity|].
  destruct (is_None (AE.v_validity_end v)); simpl; now rewrite IH.
Qed.

Section GetArticleVersionsProperties.

Variable adapter_get_article_versions : Z -> list AE.VersionRow.

Let get_article_versions := AE.get_article_versions adapter_get_article_versions.

Lemma get_article_versions_returns (node_id : Z) first rest :
  adapter_get_article_versions node_id = first :: rest ->
  get_article_versions node_id
  = Return {| AE.avr_article_number := default "" (AE.v_article_number first);
              AE.avr_normativa_title := default "" (AE.v_normativa_title first);
              AE.versions := map version_info (first :: rest);
              AE.total_versions := Z.of_nat (length (first :: rest)) |}.
Proof.
  intros Hrows. unfold get_article_versions, AE.get_article_versions.
  rewrite Hrows, version_infos_loop_map. cbn [bind app].
  now rewrite length_map.
Qed.

(** C8: for a non-empty version list the handler returns one entry per
    version, in order, each with [is_current_version] true exactly when
    its [validity_end] is absent, [total_versions] the number of versions,
    and [normativa_title] and [article_number] those of the first version;
    so there are as many current entries as versions without
    [validity_end], and two versions of which exactly one has none give
    exactly one current entry. *)
Theorem get_article_versions_contract (node_id : Z) first rest :
  adapter_get_article_versions node_id = first :: rest ->
  exists resp,
    get_article_versions node_id = Return resp
    /\ length (AE.versions resp) = length (first :: rest)
    /\ map AE.is_current_version (AE.versions resp)
       = map (fun v => is_None (AE.v_validity_end v)) (first :: rest)
    /\ AE.total_versions resp = Z.of_nat (length (first :: rest))
    /\ AE.avr_normativa_title resp = default "" (AE.v_normativa_title first)
    /\ AE.avr_article_number resp = default "" (AE.v_article_number first)
    /\ length (List.filter AE.is_current_version (AE.versions resp))
       = length (List.filter (fun v => is_None (AE.v_validity_end v))
                   (first :: rest))
    /\ (forall second,
           rest = [second] ->
           xorb (is_None (AE.v_validity_end first))
                (is_None (AE.v_validity_end second)) = true ->
           length (List.filter AE.is_current_version (AE.versions resp)) = 1%nat).
Proof.
  intros Hrows. rewrite (get_article_versions_returns _ _ _ Hrows).
  eexists. split; [reflexivity|].
  cbn [AE.versions AE.total_versions AE.avr_normativa_title AE.avr_article_number].
  repeat split.
  - now rewrite length_map.
  - rewrite map_map. reflexivity.
  - now rewrite count_current, length_map.
  - intros second -> Hx. rewrite count_current, length_map. simpl.
    destruct (is_None (AE.v_validity_end first)),
             (is_None (AE.v_validity_end second)); simpl in *;
      first [discriminate Hx | reflexivity].
Qed.

End GetArticleVersionsProperties.

Lemma get_article_versions_contract_witness :
  exists resp,
    AE.get_article_versions two_versions 55 = Return resp
    /\ map AE.is_current_version (AE.versions resp) = [false; true]
    /\ AE.total_versions resp = 2
    /\ length (List.filter AE.is_current_version (AE.versions resp)) = 1%nat.
Proof.
  destruct (get_article_versions_contract two_versions 55 version_1978
              [version_1992] eq_refl)
    as (resp & Hret & _ & Hcur & Htot & _ & _ & _ & Hone).
  exists resp. repeat split; try assumption.
  apply (Hone version_1992); reflexivity.
Defined.

(** ** [semantic_search] *)

Lemma format_date_if_formatted (x : option string) :
  SE.format_date_if x = Return (formatted_if x).
Proof.
  destruct x as [s|]; [|reflexivity]. unfold SE.format_date_if, formatted_if.
  destruct (truthy s); [|reflexivity].
  rewrite format_date_copies_agree. apply format_date_formatted.
Qed.

Section SemanticSearchProperties.

Context {str_methods : StrMethods}.
Variable get_embedding : string -> Result PyExc (list float).
Variable vector_search : list float -> Z -> string -> Result PyExc (list SE.RawHit).

Let semantic_search := SE.semantic_search get_embedding vector_search.

Lemma article_result_int (request : SE.SemanticSearchRequest) (result : SE.RawHit) :
  has_int_id result = true ->
  SE.article_result request result = Return (article_result_of request result).
Proof.
  unfold has_int_id, SE.article_result. intros ->. cbn [negb].
  rewrite !format_date_if_formatted. reflexivity.
Qed.

Lemma article_result_ill_typed (request : SE.SemanticSearchRequest)
    (result : SE.RawHit) :
  has_int_id result = false ->
  SE.article_result request result = Raise (Uncaught (type_error_of result)).
Proof. unfold has_int_id, SE.article_result. now intros ->. Qed.

Lemma article_results_loop_outcome (request : SE.SemanticSearchRequest)
    (hits : list SE.RawHit) (acc : list SE.ArticleResult) :
  SE.article_results_loop request hits acc
  = match first_ill_typed hits with
    | Some bad => Raise (Uncaught (type_error_of bad))
    | None => Return (acc ++ map (article_result_of request) hits)%list
    end.
Proof.
  revert acc. induction hits as [|h hits IH]; intros acc; simpl.
  - now rewrite app_nil_r.
  - unfold first_ill_typed in *. simpl.
    destruct (has_int_id h) eqn:Hh; simpl.
    + rewrite article_result_int by assumption. simpl.
      rewrite IH. destruct (find _ hits); [reflexivity|].
      now rewrite <- app_assoc.
    + now rewrite article_result_ill_typed.
Qed.





End SemanticSearchProperties.


(** ** The in-memory store at work *)

Example store0_lookup :
  MS.get_by_username MS.store0 "alice" = Some MS.alice
  /\ MS.get_by_username MS.store0 "carol" = None
  /\ MS.get_token_balance MS.store0 "u-alice" = 3
  /\ MS.get_token_balance (snd (MS.consume_tokens MS.store0 "u-alice" 1)) "u-alice" = 2.
Proof. repeat split; vm_compute; reflexivity. Qed.

(** ** [login] *)

Section LoginProperties.

Context {DB : Type}.
Variable get_by_username : DB -> string -> option AU.User.
Variable verify_password : AU.User -> string -> bool.
Variable create_access_token : string -> string -> string.
Variable get_token_expiry_seconds : Z.

Let login :=
  AU.login get_by_username verify_password create_access_token
    get_token_expiry_seconds.

Lemma login_unknown_user (request : AU.LoginRequest) (db : DB) :
  get_by_username db (AU.lr_username request) = None ->
  login request db = Raise invalid_credentials.
Proof. intros H. unfold login, AU.login. now rewrite H. Qed.

Lemma login_wrong_password (request : AU.LoginRequest) (db : DB) user :
  get_by_username db (AU.lr_username request) = Some user ->
  verify_password user (AU.lr_password request) = false ->
  login request db = Raise invalid_credentials.
Proof. intros Hu Hp. unfold login, AU.login. now rewrite Hu, Hp. Qed.

Lemma login_disabled (request : AU.LoginRequest) (db : DB) user :
  get_by_username db (AU.lr_username request) = Some user ->
  verify_password user (AU.lr_password request) = true ->
  AU.is_active user = false ->
  login request db = Raise account_disabled.
Proof. intros Hu Hp Ha. unfold login, AU.login. now rewrite Hu, Hp, Ha. Qed.

(** C4: a login with an unknown username and a login with a known
    username and a wrong password fail with the same 401 response, message
    included, and a login on an inactive account fails with 401 as
    well. *)
Theorem login_failures_unauthorized (db : DB)
    (unknown wrong inactive : AU.LoginRequest) (user user' : AU.User) :
  get_by_username db (AU.lr_username unknown) = None ->
  get_by_username db (AU.lr_username wrong) = Some user ->
  verify_password user (AU.lr_password wrong) = false ->
  get_by_username db (AU.lr_username inactive) = Some user' ->
  AU.is_active user' = false ->
  login unknown db
  = Raise (HTTPException HTTP_401_UNAUTHORIZED
             (mkDetail "Unauthorized" "Invalid username or password" None))
  /\ login wrong db = login unknown db
  /\ exists detail,
      login inactive db = Raise (HTTPException HTTP_401_UNAUTHORIZED detail).
Proof.
  intros Hnone Hsome Hpw Hsome' Hinactive.
  rewrite (login_unknown_user _ _ Hnone), (login_wrong_password _ _ _ Hsome Hpw).
  repeat split.
  destruct (verify_password user' (AU.lr_password inactive)) eqn:Hpw'.
  - rewrite (login_disabled _ _ _ Hsome' Hpw' Hinactive). eexists; reflexivity.
  - rewrite (login_wrong_password _ _ _ Hsome' Hpw'). eexists; reflexivity.
Qed.

(** C10: a login with the correct password on an account whose
    [is_active] is false gets 401 with the message "Account is disabled",
    which is not the response that an unknown username or a wrong password
    gets. *)
Theorem login_disabled_account_message (db : DB) (request : AU.LoginRequest)
    (user : AU.User) :
  get_by_username db (AU.lr_username request) = Some user ->
  verify_password user (AU.lr_password request) = true ->
  AU.is_active user = false ->
  login request db
  = Raise (HTTPException HTTP_401_UNAUTHORIZED
             (mkDetail "Unauthorized" "Account is disabled" None))
  /\ forall other : AU.LoginRequest,
      (get_by_username db (AU.lr_username other) = None
       \/ exists user',
           get_by_username db (AU.lr_username other) = Some user'
           /\ verify_password user' (AU.lr_password other) = false) ->
      login other db
      = Raise (HTTPException HTTP_401_UNAUTHORIZED
                 (mkDetail "Unauthorized" "Invalid username or password" None))
      /\ login other db <> login request db.
Proof.
  intros Hu Hp Ha. rewrite (login_disabled _ _ _ Hu Hp Ha).
  split; [reflexivity|]. intros other Hother.
  assert (Hfail : login other db = Raise invalid_credentials).
  { destruct Hother as [Hnone | (user' & Hsome & Hpw)].
    - now apply login_unknown_user.
    - now apply login_wrong_password with user'. }
  rewrite Hfail. split; [reflexivity | discriminate].
Qed.

End LoginProperties.

Lemma login_failures_unauthorized_witness :
  AU.login MS.get_by_username MS.verify_password stub_access_token 86400
    (login_as "alice" "wrong horse") MS.store0
  = AU.login MS.get_by_username MS.verify_password stub_access_token 86400
      (login_as "carol" "whatever") MS.store0
  /\ exists detail,
      AU.login MS.get_by_username MS.verify_password stub_access_token 86400
        (login_as "bob" "battery staple") MS.store0
      = Raise (HTTPException 401 detail).
Proof.
  apply (login_failures_unauthorized MS.get_by_username MS.verify_password
           stub_access_token 86400 MS.store0
           (login_as "carol" "whatever") (login_as "alice" "wrong horse")
           (login_as "bob" "battery staple") MS.alice MS.bob);
    vm_compute; reflexivity.
Defined.

Lemma login_disabled_account_message_witness :
  AU.login MS.get_by_username MS.verify_password stub_access_token 86400
    (login_as "bob" "battery staple") MS.store0
  = Raise account_disabled
  /\ AU.login MS.get_by_username MS.verify_password stub_access_token 86400
       (login_as "bob" "wrong") MS.store0
     <> AU.login MS.get_by_username MS.verify_password stub_access_token 86400
          (login_as "bob" "battery staple") MS.store0.
Proof.
  destruct (login_disabled_account_message MS.get_by_username MS.verify_password
              stub_access_token 86400 MS.store0
              (login_as "bob" "battery staple") MS.bob)
    as [Hmsg Hother]; try (vm_compute; reflexivity).
  split; [exact Hmsg|].
  apply (Hother (login_as "bob" "wrong")).
  right. exists MS.bob. split; vm_compute; reflexivity.
Defined.

(** ** [chat] *)

Section ChatProperties.

Context {DB : Type}.
Variable get_token_balance : DB -> string -> Z.
Variable consume_tokens : DB -> string -> Z -> bool * DB.
Variable get_conversation_user_id : DB -> string -> option string.
Variable achat :
  string -> option string -> Z -> string -> DB -> Result PyExc CE.ChatResult * DB.

Let chat := CE.chat get_token_balance consume_tokens get_conversation_user_id achat.

Lemma verify_conversation_ownership_outcome (request : CE.ChatRequest)
    (token : CE.TokenPayload) (w : CE.World DB) :
  CE.verify_conversation_ownership get_conversation_user_id request token w
  = (if owned_by_another get_conversation_user_id (CE.db w) request token
     then Raise (not_found (default "" (CE.req_conversation_id request)))
     else Return tt,
     CE.mkWorld (CE.db w) (CE.calls w ++ ownership_calls request)).
Proof.
  unfold CE.verify_conversation_ownership, owned_by_another, ownership_calls.
  destruct w as [d cs]. simpl.
  destruct (CE.req_conversation_id request) as [cid|]; simpl.
  - destruct (truthy cid); simpl.
    + unfold CE.hbind, CE.repo_get_conversation_user_id. simpl.
      destruct (get_conversation_user_id d cid) as [owner|]; simpl.
      * destruct (truthy owner && negb (String.eqb owner (CE.user_id token)));
          reflexivity.
      * reflexivity.
    + now rewrite app_nil_r.
  - now rewrite app_nil_r.
Qed.

(** The four ways through [chat]. *)
Lemma chat_outcome (request : CE.ChatRequest) (token : CE.TokenPayload)
    (w : CE.World DB) :
  let uid := CE.user_id token in
  let checked := (CE.calls w ++ [CE.GetTokenBalance uid])%list in
  chat request token w
  = if (get_token_balance (CE.db w) uid <=? 0)%Z then
      (Raise payment_required, CE.mkWorld (CE.db w) checked)
    else if owned_by_another get_conversation_user_id (CE.db w) request token then
      (Raise (not_found (default "" (CE.req_conversation_id request))),
       CE.mkWorld (CE.db w) (checked ++ ownership_calls request))
    else
      match achat_of achat request token (CE.db w) with
      | (Raise e, d') =>
          (Raise (processing_error e),
           CE.mkWorld d'
             (checked ++ ownership_calls request ++ [achat_call request token]))
      | (Return result, d') =>
          (Return (chat_response result),
           CE.mkWorld (snd (consume_tokens d' uid 1))
             (checked ++ ownership_calls request
              ++ [achat_call request token; CE.ConsumeTokens uid 1]))
      end.
Proof.
  intros uid checked. unfold chat, CE.chat.
  unfold CE.hbind at 1. unfold CE.repo_get_token_balance at 1.
  fold uid. cbn [CE.db CE.calls]. fold checked.
  destruct (get_token_balance (CE.db w) uid <=? 0)%Z; [reflexivity|].
  unfold CE.hbind at 1. rewrite verify_conversation_ownership_outcome.
  cbn [CE.db CE.calls].
  destruct (owned_by_another get_conversation_user_id (CE.db w) request token); [reflexivity|].
  unfold CE.try_except_h, CE.hbind, CE.chat_service_achat,
    CE.repo_consume_tokens, achat_of, achat_call.
  cbn [CE.db CE.calls]. fold uid.
  destruct (achat _ _ _ _ _) as [[result|e] d']; cbn [CE.db CE.calls].
  - destruct (consume_tokens d' uid 1) as [ok d'']. cbn [snd CE.ret].
    unfold chat_response. rewrite <- !app_assoc. reflexivity.
  - unfold CE.raise. rewrite <- !app_assoc. reflexivity.
Qed.

Lemma ownership_calls_no_achat (request : CE.ChatRequest) :
  List.filter is_achat (ownership_calls request) = [].
Proof.
  unfold ownership_calls.
  destruct (CE.req_conversation_id request) as [cid|]; [|reflexivity].
  destruct (truthy cid); reflexivity.
Qed.

Lemma ownership_calls_no_consume (request : CE.ChatRequest) :
  List.filter is_consume (ownership_calls request) = [].
Proof.
  unfold ownership_calls.
  destruct (CE.req_conversation_id request) as [cid|]; [|reflexivity].
  destruct (truthy cid); reflexivity.
Qed.

(** C2: a caller whose token balance is at most 0 gets 402
    PaymentRequired, and the only collaborator call made is the reading of
    the balance: the chat service is not invoked and the database is left
    as it was. *)
Theorem chat_without_tokens_payment_required (request : CE.ChatRequest)
    (token : CE.TokenPayload) (w : CE.World DB) :
  get_token_balance (CE.db w) (CE.user_id token) <= 0 ->
  chat request token w
  = (Raise (HTTPException HTTP_402_PAYMENT_REQUIRED
              (mkDetail "InsufficientTokens"
                 "You have no remaining API tokens. Please contact an administrator."
                 None)),
     CE.mkWorld (CE.db w) (CE.calls w ++ [CE.GetTokenBalance (CE.user_id token)]))
  /\ List.filter is_achat (CE.calls (snd (chat request token w)))
     = List.filter is_achat (CE.calls w).
Proof.
  intros Hbalance. rewrite chat_outcome.
  apply Z.leb_le in Hbalance. rewrite Hbalance. split; [reflexivity|].
  cbn [snd CE.calls]. rewrite List.filter_app. simpl. now rewrite app_nil_r.
Qed.

(** What is assumed of the collaborators where the balance is concerned:
    consuming [n] tokens that the user has lowers the balance by [n], and
    the chat service leaves every balance as it is. *)
Hypothesis consume_decrements :
  forall (d : DB) (uid : string) (n : Z),
    0 < n <= get_token_balance d uid ->
    get_token_balance (snd (consume_tokens d uid n)) uid
    = get_token_balance d uid - n.

Hypothesis achat_keeps_balances :
  forall query cid top_k caller (d : DB) (uid : string),
    get_token_balance (snd (achat query cid top_k caller d)) uid
    = get_token_balance d uid.

(** C1: for a caller with tokens whose request passes the ownership
    check, a result of the chat service makes [chat] return the response
    built from it, with one token consumed right after the call to the
    service and the caller's balance lower by exactly 1; a failure of the
    chat service makes [chat] raise the 500 ChatProcessingError with no
    token consumed and the balance unchanged. Conversely a token is
    consumed, and [chat] returns, only after the chat service returned a
    result. *)
Theorem chat_deducts_one_token_on_success_only (request : CE.ChatRequest)
    (token : CE.TokenPayload) (w : CE.World DB) :
  let uid := CE.user_id token in
  let out := chat request token w in
  let balance (x : CE.World DB) := get_token_balance (CE.db x) uid in
  let called :=
    (CE.calls w ++ [CE.GetTokenBalance uid] ++ ownership_calls request
     ++ [achat_call request token])%list in
  (forall result d',
      0 < balance w ->
      owned_by_another get_conversation_user_id (CE.db w) request token = false ->
      achat_of achat request token (CE.db w) = (Return result, d') ->
      out = (Return (chat_response result),
             CE.mkWorld (snd (consume_tokens d' uid 1))
               (called ++ [CE.ConsumeTokens uid 1]))
      /\ balance (snd out) = balance w - 1)
  /\ (forall e d',
         0 < balance w ->
         owned_by_another get_conversation_user_id (CE.db w) request token = false ->
         achat_of achat request token (CE.db w) = (Raise e, d') ->
         out = (Raise (HTTPException HTTP_500_INTERNAL_SERVER_ERROR
                         (mkDetail "ChatProcessingError"
                            "Failed to process chat message"
                            (Some [("exception", exc_str e)]))),
                CE.mkWorld d' called)
         /\ balance (snd out) = balance w)
  /\ (forall resp,
         fst out = Return resp ->
         exists result d',
           achat_of achat request token (CE.db w) = (Return result, d')
           /\ resp = chat_response result
           /\ balance (snd out) = balance w - 1
           /\ CE.calls (snd out) = (called ++ [CE.ConsumeTokens uid 1])%list)
  /\ (List.filter is_consume (CE.calls (snd out))
      <> List.filter is_consume (CE.calls w) ->
      exists result d',
        0 < balance w
        /\ owned_by_another get_conversation_user_id (CE.db w) request token = false
        /\ achat_of achat request token (CE.db w) = (Return result, d')
        /\ List.filter is_consume (CE.calls (snd out))
           = (List.filter is_consume (CE.calls w) ++ [CE.ConsumeTokens uid 1])%list).
Proof.
  intros uid out balance called. subst uid out balance called. cbv beta zeta.
  rewrite chat_outcome. cbv zeta.
  destruct (get_token_balance (CE.db w) (CE.user_id token) <=? 0)%Z eqn:Hbal.
  { apply Z.leb_le in Hbal. cbn [fst snd CE.db CE.calls].
    split; [intros result d' Hpos; lia|].
    split; [intros e d' Hpos; lia|].
    split; [intros resp H; discriminate H|].
    rewrite List.filter_app. simpl. rewrite app_nil_r. congruence. }
  apply Z.leb_gt in Hbal.
  destruct (owned_by_another get_conversation_user_id (CE.db w) request token)
    eqn:Hown.
  { cbn [fst snd CE.db CE.calls].
    split; [intros result d' _ H; discriminate H|].
    split; [intros e d' _ H; discriminate H|].
    split; [intros resp H; discriminate H|].
    rewrite !List.filter_app, ownership_calls_no_consume. simpl.
    rewrite !app_nil_r. congruence. }
  pose proof (achat_keeps_balances (CE.req_message request)
                (CE.req_conversation_id request) (CE.req_top_k request)
                (CE.user_id token) (CE.db w) (CE.user_id token)) as Hkeep.
  fold (achat_of achat request token (CE.db w)) in Hkeep.
  assert (Hlog : forall last : list CE.Call,
             ((CE.calls w ++ [CE.GetTokenBalance (CE.user_id token)])
              ++ ownership_calls request ++ achat_call request token :: last)%list
             = ((CE.calls w ++ [CE.GetTokenBalance (CE.user_id token)]
                 ++ ownership_calls request ++ [achat_call request token])
                ++ last)%list).
  { intros last. rewrite <- !app_assoc. reflexivity. }
  destruct (achat_of achat request token (CE.db w)) as [[result|e] d'];
    cbn [snd] in Hkeep; cbn [fst snd CE.db CE.calls].
  - assert (Hminus :
              get_token_balance
                (snd (consume_tokens d' (CE.user_id token) 1)) (CE.user_id token)
              = get_token_balance (CE.db w) (CE.user_id token) - 1)
      by (rewrite consume_decrements by lia; lia).
    split; [|split; [|split]].
    + intros result' d'' _ _ [= <- <-]. split; [|exact Hminus].
      now rewrite (Hlog [CE.ConsumeTokens (CE.user_id token) 1]).
    + intros e d'' _ _ H. discriminate H.
    + intros resp [= <-]. exists result, d'. repeat split; [exact Hminus|].
      now rewrite (Hlog [CE.ConsumeTokens (CE.user_id token) 1]).
    + intros _. exists result, d'. repeat split; [exact Hbal|].
      rewrite !List.filter_app, ownership_calls_no_consume. simpl.
      now rewrite !app_nil_r.
  - split; [|split; [|split]].
    + intros result d'' _ _ H. discriminate H.
    + intros e' d'' _ _ [= <- <-]. split; [|exact Hkeep].
      rewrite (Hlog []). now rewrite app_nil_r.
    + intros resp H. discriminate H.
    + rewrite !List.filter_app, ownership_calls_no_consume. simpl.
      rewrite !app_nil_r. congruence.
Qed.

(** C3, as the code has it: for a caller with tokens, a request naming a
    conversation owned by another user is answered 404
    ConversationNotFound, the chat service not being invoked; a request
    naming a conversation the store does not know is not answered 404 at
    all: it goes to the chat service, and the answer is the response built
    from the service's result, or the 500 ChatProcessingError carrying the
    service's failure. *)
Theorem chat_conversation_of_another_user (request : CE.ChatRequest)
    (token : CE.TokenPayload) (w : CE.World DB) (cid : string) :
  0 < get_token_balance (CE.db w) (CE.user_id token) ->
  CE.req_conversation_id request = Some cid ->
  (forall owner,
      truthy cid = true ->
      get_conversation_user_id (CE.db w) cid = Some owner ->
      truthy owner = true ->
      owner <> CE.user_id token ->
      chat request token w
      = (Raise (HTTPException HTTP_404_NOT_FOUND
                  (mkDetail "ConversationNotFound"
                     ("Conversation '" +:+ cid +:+ "' not found") None)),
         CE.mkWorld (CE.db w)
           (CE.calls w ++ [CE.GetTokenBalance (CE.user_id token);
                           CE.GetConversationUserId cid])))
  /\ (get_conversation_user_id (CE.db w) cid = None ->
      chat request token w
      = match achat_of achat request token (CE.db w) with
        | (Return result, d') =>
            (Return (chat_response result),
             CE.mkWorld (snd (consume_tokens d' (CE.user_id token) 1))
               (CE.calls w ++ [CE.GetTokenBalance (CE.user_id token)]
                ++ ownership_calls request
                ++ [achat_call request token;
                    CE.ConsumeTokens (CE.user_id token) 1]))
        | (Raise e, d') =>
            (Raise (HTTPException HTTP_500_INTERNAL_SERVER_ERROR
                      (mkDetail "ChatProcessingError"
                         "Failed to process chat message"
                         (Some [("exception", exc_str e)]))),
             CE.mkWorld d'
               (CE.calls w ++ [CE.GetTokenBalance (CE.user_id token)]
                ++ ownership_calls request ++ [achat_call request token]))
        end
      /\ (forall detail,
             fst (chat request token w)
             <> Raise (HTTPException HTTP_404_NOT_FOUND detail))
      /\ In (achat_call request token) (CE.calls (snd (chat request token w)))).
Proof.
  intros Hbal Hcid. apply Z.leb_gt in Hbal.
  split.
  - intros owner Htruthy Howner Hnonempty Hother.
    rewrite chat_outcome. cbv zeta. rewrite Hbal.
    unfold owned_by_another, ownership_calls.
    rewrite Hcid, Htruthy, Howner, Hnonempty.
    apply String.eqb_neq in Hother. rewrite Hother. cbn [andb negb default].
    now rewrite <- app_assoc.
  - intros Hnone. rewrite chat_outcome. cbv zeta. rewrite Hbal.
    unfold owned_by_another. rewrite Hcid, Hnone, andb_false_r.
    destruct (achat_of achat request token (CE.db w)) as [[result|e] d'];
      cbn [fst snd CE.calls]; (split; [|split]).
    + now rewrite <- !app_assoc.
    + discriminate.
    + rewrite !in_app_iff. right. right. now left.
    + now rewrite <- !app_assoc.
    + discriminate.
    + rewrite !in_app_iff. right. right. now left.
Qed.

End ChatProperties.

Lemma store_consume_decrements (d : MS.Store) (uid : string) (n : Z) :
  0 < n <= MS.get_token_balance d uid ->
  MS.get_token_balance (snd (MS.consume_tokens d uid n)) uid
  = MS.get_token_balance d uid - n.
Proof.
  unfold MS.get_token_balance, MS.consume_tokens.
  destruct (MS.users d !! uid) as [user|] eqn:Huser; [|lia].
  intros [_ Hle]. apply Z.leb_le in Hle. rewrite Hle. simpl.
  now rewrite lookup_insert_eq.
Qed.

Lemma store_achat_answers_keeps_balances query cid top_k caller
    (d : MS.Store) (uid : string) :
  MS.get_token_balance (snd (MS.achat_answers query cid top_k caller d)) uid
  = MS.get_token_balance d uid.
Proof. reflexivity. Qed.

Lemma store_achat_fails_keeps_balances query cid top_k caller
    (d : MS.Store) (uid : string) :
  MS.get_token_balance (snd (MS.achat_fails query cid top_k caller d)) uid
  = MS.get_token_balance d uid.
Proof. reflexivity. Qed.

Lemma chat_without_tokens_payment_required_witness :
  fst (chat_on MS.achat_answers (ask None) bob_token world0) = Raise payment_required
  /\ List.filter is_achat
       (CE.calls (snd (chat_on MS.achat_answers (ask None) bob_token world0))) = [].
Proof.
  destruct (chat_without_tokens_payment_required MS.get_token_balance
              MS.consume_tokens MS.get_conversation_user_id MS.achat_answers
              (ask None) bob_token world0) as [Hout Hcalls].
  - vm_compute. discriminate.
  - split; [|exact Hcalls]. unfold chat_on. now rewrite Hout.
Defined.

Lemma chat_deducts_one_token_on_success_only_witness :
  (exists resp,
      fst (chat_on MS.achat_answers (ask None) alice_token world0) = Return resp
      /\ MS.get_token_balance
           (CE.db (snd (chat_on MS.achat_answers (ask None) alice_token world0)))
           "u-alice" = 3 - 1)
  /\ fst (chat_on MS.achat_fails (ask None) alice_token world0)
     = Raise (processing_error (OtherException "LLM unavailable"))
  /\ MS.get_token_balance
       (CE.db (snd (chat_on MS.achat_fails (ask None) alice_token world0)))
       "u-alice" = 3.
Proof.
  assert (Hpos : 0 < MS.get_token_balance (CE.db world0) (CE.user_id alice_token))
    by (vm_compute; reflexivity).
  split.
  - destruct (chat_deducts_one_token_on_success_only MS.get_token_balance
                MS.consume_tokens MS.get_conversation_user_id MS.achat_answers
                store_consume_decrements store_achat_answers_keeps_balances
                (ask None) alice_token world0) as (Hok & _).
    destruct (Hok (fst_result (MS.achat_answers "que dice el articulo 14" None 5
                                 "u-alice" MS.store0))
                  (snd (MS.achat_answers "que dice el articulo 14" None 5
                          "u-alice" MS.store0))
                  Hpos eq_refl eq_refl) as [Hout Hbalance].
    eexists. split; [|exact Hbalance].
    unfold chat_on. rewrite Hout. reflexivity.
  - destruct (chat_deducts_one_token_on_success_only MS.get_token_balance
                MS.consume_tokens MS.get_conversation_user_id MS.achat_fails
                store_consume_decrements store_achat_fails_keeps_balances
                (ask None) alice_token world0) as (_ & Hfail & _).
    destruct (Hfail (OtherException "LLM unavailable") MS.store0
                Hpos eq_refl eq_refl) as [Hout Hbalance].
    split; [|exact Hbalance].
    unfold chat_on. rewrite Hout. reflexivity.
Defined.

Lemma chat_conversation_of_another_user_witness :
  fst (chat_on MS.achat_answers (ask (Some "conv-bob")) alice_token world0)
  = Raise (not_found "conv-bob")
  /\ forall detail,
      fst (chat_on MS.achat_answers (ask (Some "conv-ghost")) alice_token world0)
      <> Raise (HTTPException 404 detail).
Proof.
  assert (Hbalance : 0 < MS.get_token_balance (CE.db world0) (CE.user_id alice_token))
    by (vm_compute; reflexivity).
  split.
  - pose proof (chat_conversation_of_another_user MS.get_token_balance
                  MS.consume_tokens MS.get_conversation_user_id MS.achat_answers
                  (ask (Some "conv-bob")) alice_token world0 "conv-bob"
                  Hbalance eq_refl) as [Hforeign _].
    unfold chat_on. rewrite (Hforeign "u-bob").
    + reflexivity.
    + reflexivity.
    + vm_compute. reflexivity.
    + reflexivity.
    + discriminate.
  - pose proof (chat_conversation_of_another_user MS.get_token_balance
                  MS.consume_tokens MS.get_conversation_user_id MS.achat_answers
                  (ask (Some "conv-ghost")) alice_token world0 "conv-ghost"
                  Hbalance eq_refl) as [_ Hunknown].
    destruct Hunknown as (_ & Hnever & _); [vm_compute; reflexivity|].
    exact Hnever.
Defined.

(** C3, as the specification words it, fails: the conversation of another
    user is answered 404, while a conversation id that does not exist is
    answered with the chat service's result, or with 500 when the service
    fails, and never with the 404 response. *)
Lemma chat_unknown_conversation_is_not_not_found :
  MS.get_conversation_user_id MS.store0 "conv-bob" = Some "u-bob"
  /\ MS.get_conversation_user_id MS.store0 "conv-ghost" = None
  /\ fst (chat_on MS.achat_answers (ask (Some "conv-bob")) alice_token world0)
     = Raise (not_found "conv-bob")
  /\ fst (chat_on MS.achat_answers (ask (Some "conv-ghost")) alice_token world0)
     = Return {| CE.response := "respuesta a: que dice el articulo 14";
                 CE.conversation_id := "conv-ghost";
                 CE.citations := [];
                 CE.execution_time_ms := 12.5%float |}
  /\ fst (chat_on MS.achat_fails (ask (Some "conv-ghost")) alice_token world0)
     = Raise (processing_error (OtherException "LLM unavailable"))
  /\ fst (chat_on MS.achat_answers (ask (Some "conv-ghost")) alice_token world0)
     <> Raise (not_found "conv-ghost")
  /\ fst (chat_on MS.achat_fails (ask (Some "conv-ghost")) alice_token world0)
     <> Raise (not_found "conv-ghost").
Proof.
  repeat split; try (vm_compute; reflexivity); vm_compute; discriminate.
Qed.

(** * Further properties *)

(** ** [format_date], again *)

(** X1: formatting a date that [format_date] produced changes nothing, so
    dates already in ISO form pass through. *)
Theorem format_date_idempotent (date_str : option string) :
  (let* r := AE.format_date date_str in AE.format_date r)%result
  = AE.format_date date_str
  /\ (let* r := SE.format_date date_str in SE.format_date r)%result
     = SE.format_date date_str.
Proof.
  rewrite format_date_copies_agree. split; rewrite format_date_formatted;
    cbn [bind]; rewrite format_date_formatted; f_equal;
    destruct date_str as [s|]; try reflexivity; simpl;
    destruct (Nat.eqb_spec (String.length s) 8) as [E|E]; simpl.
  all: try (rewrite (hyphenated_length s E); reflexivity).
  all: destruct (Nat.eqb_spec (String.length s) 8); [contradiction | reflexivity].
Qed.

Lemma hyphenated_read_back (s : string) :
  String.length s = 8%nat ->
  String.get 4 (hyphenated s) = Some "-"%char
  /\ String.get 7 (hyphenated s) = Some "-"%char
  /\ unhyphenated (hyphenated s) = s.
Proof. intros H. explode s H. repeat split. Qed.

(** X2: the formatted form of an 8-character date has 10 characters, with
    hyphens at index 4 and 7, and the date can be read back from it; so
    two different 8-character dates are never formatted alike. *)
Theorem format_date_read_back (s : string) :
  String.length s = 8%nat ->
  exists r,
    AE.format_date (Some s) = Return (Some r)
    /\ String.length r = 10%nat
    /\ String.get 4 r = Some "-"%char
    /\ String.get 7 r = Some "-"%char
    /\ unhyphenated r = s
    /\ forall s', String.length s' = 8%nat ->
                  AE.format_date (Some s') = Return (Some r) -> s' = s.
Proof.
  intros H. exists (hyphenated s).
  destruct (hyphenated_read_back s H) as (H4 & H7 & Hback).
  repeat split; try assumption.
  - now apply format_date_length_8.
  - now apply hyphenated_length.
  - intros s' H' E. rewrite (format_date_length_8 s' H') in E.
    injection E as E. apply (f_equal unhyphenated) in E.
    destruct (hyphenated_read_back s' H') as (_ & _ & Hback').
    congruence.
Qed.

Lemma format_date_read_back_witness :
  exists r,
    AE.format_date (Some "19871123") = Return (Some r)
    /\ unhyphenated r = "19871123".
Proof.
  destruct (format_date_read_back "19871123" eq_refl)
    as (r & Hret & _ & _ & _ & Hback & _).
  exists r. split; assumption.
Defined.

(** ** [query_not_empty] *)

Section QueryNotEmpty.

Context {str_methods : StrMethods}.

Lemma lstrip_first (s : string) :
  match first_char (lstrip s) with
  | Some c => is_space_char c = false
  | None => all_space s = true
  end.
Proof.
  induction s as [|c r IH]; simpl; [reflexivity|].
  destruct (is_space_char c) eqn:Hc; simpl; [|exact Hc].
  exact IH.
Qed.

Lemma lstrip_all_space (s : string) : all_space s = true -> lstrip s = "".
Proof.
  induction s as [|c r IH]; simpl; [reflexivity|].
  intros H. apply andb_prop in H as [Hc Hr]. rewrite Hc. now apply IH.
Qed.

Lemma lstrip_fixed (s : string) :
  match first_char s with
  | Some c => is_space_char c = false
  | None => True
  end -> lstrip s = s.
Proof. destruct s as [|c r]; simpl; [reflexivity|]. now intros ->. Qed.

Lemma rstrip_empty (s : string) : rstrip s = "" <-> all_space s = true.
Proof.
  induction s as [|c r IH]; simpl; [tauto|].
  destruct (rstrip r) as [|c' r'] eqn:Hr.
  - destruct (is_space_char c); simpl.
    + tauto.
    + split; discriminate.
  - split; [discriminate|]. intros H. apply andb_prop in H as [_ H].
    apply IH in H. discriminate H.
Qed.

Lemma rstrip_first (c : ascii) (r : string) :
  is_space_char c = false -> first_char (rstrip (String c r)) = Some c.
Proof. intros Hc. simpl. rewrite Hc. destruct (rstrip r); reflexivity. Qed.

Lemma rstrip_idempotent (s : string) : rstrip (rstrip s) = rstrip s.
Proof.
  induction s as [|c r IH]; simpl; [reflexivity|].
  destruct (rstrip r) as [|c' r'] eqn:Hr.
  - destruct (is_space_char c) eqn:Hc; simpl; [reflexivity | now rewrite Hc].
  - change (rstrip (String c (String c' r')) = String c (String c' r')).
    cbn [rstrip] in IH |- *. fold rstrip in IH |- *.
    simpl. simpl in IH. rewrite IH. reflexivity.
Qed.

Lemma last_char_some (c : ascii) (r : string) :
  exists x, last_char (String c r) = Some x.
Proof.
  revert c. induction r as [|c' r IH]; intros c; [now exists c|].
  destruct (IH c') as [x Hx]. exists x. exact Hx.
Qed.

Lemma rstrip_last (s : string) :
  match last_char (rstrip s) with
  | Some c => is_space_char c = false
  | None => all_space s = true
  end.
Proof.
  induction s as [|c r IH]; [reflexivity|].
  cbn [rstrip]. destruct (rstrip r) as [|c' r'] eqn:Hr.
  - destruct (is_space_char c) eqn:Hc; simpl.
    + rewrite Hc. exact IH.
    + exact Hc.
  - change (last_char (String c (String c' r'))) with (last_char (String c' r')).
    destruct (last_char_some c' r') as [x Hx]. rewrite Hx in IH |- *. exact IH.
Qed.

Lemma strip_empty (s : string) : strip s = "" <-> all_space s = true.
Proof.
  unfold strip. rewrite rstrip_empty. split.
  - intros H. pose proof (lstrip_first s) as Hf.
    destruct (lstrip s) as [|c r] eqn:Hl; [exact Hf|].
    simpl in Hf, H. rewrite Hf in H. discriminate H.
  - intros H. now rewrite lstrip_all_space.
Qed.

Lemma strip_first (s : string) :
  match first_char (strip s) with
  | Some c => is_space_char c = false
  | None => True
  end.
Proof.
  unfold strip. pose proof (lstrip_first s) as Hf.
  destruct (lstrip s) as [|c r]; [exact I|].
  simpl in Hf. rewrite (rstrip_first c r Hf). exact Hf.
Qed.

Lemma strip_idempotent (s : string) : strip (strip s) = strip s.
Proof.
  unfold strip at 1. rewrite (lstrip_fixed (strip s)) by apply strip_first.
  unfold strip. apply rstrip_idempotent.
Qed.

(** X3: a query that passes [query_not_empty] comes out stripped: it is
    [v.strip()], it is not empty, it neither starts nor ends with a
    whitespace character, and validating it again returns it unchanged. *)
Theorem query_not_empty_normalizes (v q : string) :
  ApiSchema.query_not_empty v = Return q ->
  q = strip v
  /\ q <> ""
  /\ (exists c, first_char q = Some c /\ is_space_char c = false)
  /\ (exists c, last_char q = Some c /\ is_space_char c = false)
  /\ ApiSchema.query_not_empty q = Return q.
Proof.
  unfold ApiSchema.query_not_empty.
  destruct (strip v) as [|c r] eqn:Hs; [discriminate|].
  intros H. injection H as <-. rewrite <- Hs.
  assert (Hne : strip v <> "") by (rewrite Hs; discriminate).
  split; [reflexivity|]. split; [exact Hne|]. repeat split.
  - pose proof (strip_first v) as Hf. rewrite Hs in Hf |- *. now exists c.
  - pose proof (rstrip_last (lstrip v)) as Hl. fold (strip v) in Hl.
    destruct (last_char (strip v)) as [c'|] eqn:Hlast; [now exists c'|].
    rewrite Hs in Hlast. destruct (last_char_some c r) as [x Hx]. congruence.
  - rewrite strip_idempotent, Hs. reflexivity.
Qed.

(** X4: [query_not_empty] raises its [ValueError] exactly for the queries
    made of whitespace only, the empty query among them; any other query is
    accepted. *)
Theorem query_not_empty_rejects_blank (v : string) :
  (all_space v = true <->
   ApiSchema.query_not_empty v
   = Raise (ValueError "Query cannot be empty or only whitespace"))
  /\ (all_space v = false <-> exists q, ApiSchema.query_not_empty v = Return q).
Proof.
  unfold ApiSchema.query_not_empty.
  pose proof (strip_empty v) as He.
  destruct (strip v) as [|c r] eqn:Hs; simpl.
  - assert (Hall : all_space v = true) by now apply He.
    rewrite Hall. split; split; try reflexivity; try discriminate.
    intros [q H]. discriminate H.
  - assert (Hall : all_space v = false).
    { destruct (all_space v); [|reflexivity].
      destruct He as [_ He]. discriminate (He eq_refl). }
    rewrite Hall. split; split; try discriminate; try reflexivity.
    intros _. eexists; reflexivity.
Qed.

End QueryNotEmpty.

Lemma query_not_empty_normalizes_witness :
  "libertad" = strip "  libertad  "
  /\ ApiSchema.query_not_empty "libertad" = Return "libertad".
Proof.
  assert (Hvalid : ApiSchema.query_not_empty "  libertad  " = Return "libertad")
    by (vm_compute; reflexivity).
  destruct (query_not_empty_normalizes "  libertad  " "libertad" Hvalid)
    as (Hstrip & _ & _ & _ & Hagain).
  split; assumption.
Defined.

Lemma query_not_empty_rejects_blank_witness :
  ApiSchema.query_not_empty "   "
  = Raise (ValueError "Query cannot be empty or only whitespace").
Proof.
  apply (proj1 (proj1 (query_not_empty_rejects_blank "   "))). reflexivity.
Defined.

(** ** [format_context_path], again *)

Lemma append_assoc3 (a b c : string) : (a +:+ b) +:+ c = a +:+ (b +:+ c).
Proof.
  induction a as [|x a IH]; [reflexivity|].
  change (String x ((a +:+ b) +:+ c) = String x (a +:+ (b +:+ c))).
  now f_equal.
Qed.

Lemma join_app (sep : string) (l1 l2 : list string) :
  l1 <> [] -> l2 <> [] ->
  join sep (l1 ++ l2) = join sep l1 +:+ sep +:+ join sep l2.
Proof.
  intros H1 H2. induction l1 as [|x [|y l] IH]; [contradiction| |].
  - destruct l2; [contradiction | reflexivity].
  - change (x +:+ sep +:+ join sep ((y :: l) ++ l2)
            = (x +:+ sep +:+ join sep (y :: l)) +:+ sep +:+ join sep l2).
    rewrite IH by discriminate. now rewrite !append_assoc3.
Qed.

Section FormatContextPathAgain.

Context {str_methods : StrMethods}.

Lemma filter_keeps_twice (p : list (gmap string string)) :
  List.filter SE.keeps (List.filter SE.keeps p) = List.filter SE.keeps p.
Proof.
  induction p as [|item p IH]; simpl; [reflexivity|].
  destruct (SE.keeps item) eqn:Hk; simpl; [rewrite Hk|]; now rewrite IH.
Qed.

(** X5: entries of type ROOT or CONTENT do not show wherever they stand:
    the breadcrumb of a path is that of its other entries; and the
    breadcrumb of a path continued by another is the breadcrumb of the
    continuation, ", ", and the breadcrumb of the path (leaf first), or
    just one of the two when the other shows no entry. *)
Theorem format_context_path_concat (a b : list (gmap string string)) :
  SE.format_context_path a = SE.format_context_path (List.filter SE.keeps a)
  /\ (List.filter SE.keeps a = [] ->
      SE.format_context_path (a ++ b) = SE.format_context_path b)
  /\ (List.filter SE.keeps b = [] ->
      SE.format_context_path (a ++ b) = SE.format_context_path a)
  /\ (List.filter SE.keeps a <> [] -> List.filter SE.keeps b <> [] ->
      SE.format_context_path (a ++ b)
      = SE.format_context_path b +:+ ", " +:+ SE.format_context_path a).
Proof.
  rewrite !format_context_path_breadcrumb. unfold breadcrumb.
  rewrite filter_keeps_twice, List.filter_app, rev_app_distr, map_app.
  split; [reflexivity|]. split; [|split].
  - intros ->. simpl. now rewrite app_nil_r.
  - intros ->. reflexivity.
  - intros Ha Hb. apply join_app.
    + intros E. apply map_eq_nil in E.
      apply (f_equal (@rev _)) in E. rewrite rev_involutive in E. contradiction.
    + intros E. apply map_eq_nil in E.
      apply (f_equal (@rev _)) in E. rewrite rev_involutive in E. contradiction.
Qed.

(** X7: missing keys do not raise. A shown entry without a "name" key is
    written as its capitalized type and a space, whatever the case methods
    are. An entry without a "type" key is not taken for a ROOT or CONTENT
    node, given that upper-casing the empty string gives the empty
    string: it is shown as the capitalized empty string, a space and its
    name. *)
Theorem format_context_path_missing_keys (item : gmap string string) :
  (item !! "name" = None -> SE.keeps item = true ->
   SE.format_context_path [item]
   = capitalize (SE.get_str item "type") +:+ " ")
  /\ (item !! "type" = None -> upper "" = "" ->
      SE.keeps item = true
      /\ SE.format_context_path [item]
         = capitalize "" +:+ " " +:+ shown_name item).
Proof.
  rewrite format_context_path_breadcrumb. unfold breadcrumb. split.
  - intros Hn Hk. simpl. rewrite Hk. simpl.
    unfold text_of, shown_name, SE.get_str. rewrite Hn. simpl.
    now rewrite andb_false_r.
  - intros Ht Hupper.
    assert (Hk : SE.keeps item = true).
    { unfold SE.keeps, SE.get_str. rewrite Ht. simpl. now rewrite Hupper. }
    split; [exact Hk|]. simpl. rewrite Hk. simpl.
    unfold text_of, SE.get_str. now rewrite Ht.
Qed.

End FormatContextPathAgain.

Lemma format_context_path_concat_witness :
  SE.format_context_path
    ([entry "ROOT" "BOE"; entry "Titulo" "I"] ++ [entry "Capitulo" "II"])
  = SE.format_context_path [entry "Capitulo" "II"] +:+ ", "
    +:+ SE.format_context_path [entry "ROOT" "BOE"; entry "Titulo" "I"].
Proof.
  apply (format_context_path_concat [entry "ROOT" "BOE"; entry "Titulo" "I"]
           [entry "Capitulo" "II"]); vm_compute; discriminate.
Defined.

Lemma format_context_path_missing_keys_witness :
  SE.format_context_path [ {[ "type" := "libro" ]} ] = "Libro "
  /\ SE.format_context_path [ {[ "name" := "PRELIMINAR" ]} ] = " Preliminar".
Proof.
  split.
  - rewrite (proj1 (format_context_path_missing_keys {[ "type" := "libro" ]}));
      reflexivity.
  - destruct (proj2 (format_context_path_missing_keys {[ "name" := "PRELIMINAR" ]}))
      as [_ Hshown]; [reflexivity | reflexivity |].
    rewrite Hshown. reflexivity.
Defined.

(** ** [get_article] and [get_article_versions] *)

Lemma str_if_none (x : option Z) :
  AE.str_if x = None <-> x = None \/ x = Some 0.
Proof.
  destruct x as [n|]; simpl.
  - destruct (Z.eqb_spec n 0) as [->|Hn].
    + split; auto.
    + split; [discriminate|]. intros [H|H]; [discriminate | congruence].
  - split; auto.
Qed.

Lemma formatted_none (d : option string) : formatted d = None <-> d = None.
Proof.
  destruct d as [s|]; simpl; [|tauto].
  destruct (String.length s =? 8)%nat; split; discriminate.
Qed.

Section ArticleProperties.

Variable adapter_get_article_by_id : Z -> option AE.ArticleRow.
Variable adapter_get_article_versions : Z -> list AE.VersionRow.

Let get_article := AE.get_article adapter_get_article_by_id.
Let get_article_versions := AE.get_article_versions adapter_get_article_versions.

Lemma get_article_returns (node_id : Z) (row : AE.ArticleRow) :
  adapter_get_article_by_id node_id = Some row ->
  get_article node_id = Return (detail_of row).
Proof.
  intros H. unfold get_article, AE.get_article. rewrite H.
  rewrite !format_date_formatted. reflexivity.
Qed.


(** X9: in the detail of an article a version link is null exactly when
    the row has no such link or the linked node id is 0, and is the
    decimal string of the id otherwise; a date is null exactly when the row
    has none, an empty date staying the empty string. *)
Theorem get_article_links_and_dates (node_id : Z) (row : AE.ArticleRow) :
  adapter_get_article_by_id node_id = Some row ->
  exists resp,
    get_article node_id = Return resp
    /\ (AE.ad_previous_version_id resp = None <->
        AE.a_previous_version_id row = None \/ AE.a_previous_version_id row = Some 0)
    /\ (AE.ad_next_version_id resp = None <->
        AE.a_next_version_id row = None \/ AE.a_next_version_id row = Some 0)
    /\ (forall n, AE.a_previous_version_id row = Some n -> n <> 0 ->
                  AE.ad_previous_version_id resp = Some (str_int n))
    /\ (forall n, AE.a_next_version_id row = Some n -> n <> 0 ->
                  AE.ad_next_version_id resp = Some (str_int n))
    /\ (AE.ad_fecha_publicacion resp = None <-> AE.a_fecha_publicacion row = None)
    /\ (AE.ad_fecha_vigencia resp = None <-> AE.a_fecha_vigencia row = None)
    /\ (AE.ad_fecha_caducidad resp = None <-> AE.a_fecha_caducidad row = None)
    /\ (AE.a_fecha_vigencia row = Some "" -> AE.ad_fecha_vigencia resp = Some "").
Proof.
  intros H. exists (detail_of row). split; [now apply get_article_returns|].
  cbn [detail_of AE.ad_previous_version_id AE.ad_next_version_id
       AE.ad_fecha_publicacion AE.ad_fecha_vigencia AE.ad_fecha_caducidad].
  repeat split; try apply str_if_none; try apply formatted_none.
  - intros n -> Hn. simpl. now destruct (Z.eqb_spec n 0).
  - intros n -> Hn. simpl. now destruct (Z.eqb_spec n 0).
  - now intros ->.
Qed.

(** X10: every entry of a version list is consistent: it is flagged
    current exactly when its [fecha_caducidad] is null, and its dates are
    the row's dates formatted. *)
Theorem get_article_versions_entries (node_id : Z) first rest :
  adapter_get_article_versions node_id = first :: rest ->
  exists resp,
    get_article_versions node_id = Return resp
    /\ Forall (fun info =>
                 AE.is_current_version info = true
                 <-> AE.fecha_caducidad info = None)
              (AE.versions resp)
    /\ map AE.fecha_caducidad (AE.versions resp)
       = map (fun v => formatted (AE.v_validity_end v)) (first :: rest)
    /\ map AE.fecha_vigencia (AE.versions resp)
       = map (fun v => formatted (AE.v_validity_start v)) (first :: rest).
Proof.
  intros H. unfold get_article_versions.
  rewrite (get_article_versions_returns _ _ _ _ H).
  eexists. split; [reflexivity|]. cbn [AE.versions].
  split; [|split; now rewrite map_map].
  apply List.Forall_forall. intros info Hin.
  apply List.in_map_iff in Hin as (v & <- & _).
  cbn [version_info AE.is_current_version AE.fecha_caducidad].
  rewrite formatted_none. destruct (AE.v_validity_end v); simpl; split;
    congruence.
Qed.

End ArticleProperties.


Lemma get_article_links_and_dates_witness :
  exists resp,
    AE.get_article only_article_55 55 = Return resp
    /\ AE.ad_previous_version_id resp = None
    /\ AE.ad_next_version_id resp = Some "56"
    /\ AE.ad_fecha_vigencia resp = Some "".
Proof.
  destruct (get_article_links_and_dates only_article_55 55 article_14 eq_refl)
    as (resp & Hret & Hprev & _ & _ & Hnext & _ & _ & _ & Hempty).
  exists resp. repeat split.
  - exact Hret.
  - apply Hprev. right. reflexivity.
  - apply (Hnext 56); [reflexivity | discriminate].
  - apply Hempty. reflexivity.
Defined.

Lemma get_article_versions_entries_witness :
  exists resp,
    AE.get_article_versions versions_of_55 55 = Return resp
    /\ map AE.fecha_caducidad (AE.versions resp) = [Some "1992-08-28"; None].
Proof.
  destruct (get_article_versions_entries versions_of_55 55 version_1978
              [version_1992] eq_refl) as (resp & Hret & _ & Hend & _).
  exists resp. split; assumption.
Defined.

(** ** [semantic_search], again *)

Lemma se_str_if_none (x : option Z) :
  SE.str_if x = None <-> x = None \/ x = Some 0.
Proof.
  destruct x as [n|]; simpl.
  - destruct (Z.eqb_spec n 0) as [->|Hn].
    + split; auto.
    + split; [discriminate|]. intros [H|H]; [discriminate | congruence].
  - split; auto.
Qed.

Lemma formatted_if_none (d : option string) :
  formatted_if d = None <-> d = None \/ d = Some "".
Proof.
  destruct d as [[|c r]|]; simpl.
  - split; auto.
  - destruct (String.length r =? 7)%nat; split; try discriminate;
      intros [H|H]; discriminate H.
  - split; auto.
Qed.

Section SemanticSearchFailures.

Context {str_methods : StrMethods}.
Variable get_embedding : string -> Result PyExc (list float).
Variable vector_search : list float -> Z -> string -> Result PyExc (list SE.RawHit).

Let semantic_search := SE.semantic_search get_embedding vector_search.

(** X11: in a search result a date is null exactly when the hit has no
    date or an empty one, and a version link is null exactly when the hit
    has no link or the linked node id is 0; [context_path_text] is the
    hit's [article_path] when that is not empty and the formatted context
    path otherwise, and the raw context path is passed on. *)
Theorem article_result_fields (request : SE.SemanticSearchRequest)
    (result : SE.RawHit) :
  has_int_id result = true ->
  exists r,
    SE.article_result request result = Return r
    /\ (SE.fecha_publicacion r = None <->
        SE.h_fecha_publicacion result = None \/ SE.h_fecha_publicacion result = Some "")
    /\ (SE.fecha_vigencia r = None <->
        SE.h_fecha_vigencia result = None \/ SE.h_fecha_vigencia result = Some "")
    /\ (SE.fecha_caducidad r = None <->
        SE.h_fecha_caducidad result = None \/ SE.h_fecha_caducidad result = Some "")
    /\ (SE.previous_version_id r = None <->
        SE.h_previous_version_id result = None
        \/ SE.h_previous_version_id result = Some 0)
    /\ (SE.next_version_id r = None <->
        SE.h_next_version_id result = None \/ SE.h_next_version_id result = Some 0)
    /\ SE.context_path_text (SE.metadata r)
       = match SE.h_article_path result with
         | Some (String c p) => String c p
         | _ => SE.format_context_path (SE.h_context_path result)
         end
    /\ SE.context_path r = SE.h_context_path result
    /\ SE.md_query (SE.metadata r) = SE.query request.
Proof.
  intros Hint. exists (article_result_of request result).
  split; [now apply article_result_int|].
  cbn [article_result_of SE.fecha_publicacion SE.fecha_vigencia SE.fecha_caducidad
       SE.previous_version_id SE.next_version_id SE.metadata SE.context_path
       SE.context_path_text SE.md_query].
  repeat split; try apply formatted_if_none; try apply se_str_if_none.
  destruct (SE.h_article_path result) as [[|c p]|]; reflexivity.
Qed.

(** X12: a failure of the embedding provider is answered 500
    EmbeddingGenerationError without the vector index being searched; a
    failure of the vector search is answered 500 DatabaseError; the
    catch-all of the handler leaves both as they are. Whatever happens, the
    handler lets no other exception out: what it raises is an
    [HTTPException] with status 500 and one of the three tags. *)
Theorem semantic_search_failures (request : SE.SemanticSearchRequest)
    (start_time end_time : float) :
  (forall e,
      get_embedding (SE.query request) = Raise e ->
      semantic_search request start_time end_time
      = Raise (HTTPException HTTP_500_INTERNAL_SERVER_ERROR
                 (mkDetail "EmbeddingGenerationError"
                    "Failed to generate query embedding"
                    (Some [("exception", exc_str e)]))))
  /\ (forall emb e,
         get_embedding (SE.query request) = Return emb ->
         vector_search emb (SE.top_k request) (SE.index_name request) = Raise e ->
         semantic_search request start_time end_time
         = Raise (HTTPException HTTP_500_INTERNAL_SERVER_ERROR
                    (mkDetail "DatabaseError" "Failed to search vector database"
                       (Some [("exception", exc_str e)]))))
  /\ (forall x, semantic_search request start_time end_time <> Raise (Uncaught x))
  /\ (forall status detail,
         semantic_search request start_time end_time
         = Raise (HTTPException status detail) ->
         status = 500 /\ In (error detail) search_error_tags).
Proof.
  unfold semantic_search, SE.semantic_search.
  destruct (get_embedding (SE.query request)) as [emb|e0] eqn:Hemb;
    cbn [try_except bind].
  2: { repeat split; try discriminate.
       - now intros e [= ->].
       - now injection H as <- _.
       - injection H as _ <-. simpl. auto. }
  destruct (vector_search emb (SE.top_k request) (SE.index_name request))
    as [hits|e1] eqn:Hhits; cbn [try_except bind].
  2: { repeat split; try discriminate.
       - intros emb' e [= <-] He. rewrite Hhits in He. now injection He as ->.
       - now injection H as <- _.
       - injection H as _ <-. simpl. auto. }
  rewrite article_results_loop_outcome.
  destruct (first_ill_typed hits) as [bad|]; cbn [try_except bind];
    repeat split; try discriminate.
  - intros emb' e [= <-] He. rewrite Hhits in He. discriminate He.
  - now injection H as <- _.
  - injection H as _ <-. simpl. auto.
  - intros emb' e [= <-] He. rewrite Hhits in He. discriminate He.
Qed.

End SemanticSearchFailures.

Lemma article_result_fields_witness :
  exists r,
    SE.article_result libertad hit_blank_dates = Return r
    /\ SE.fecha_publicacion r = None
    /\ SE.previous_version_id r = None
    /\ SE.context_path_text (SE.metadata r) = "Titulo Preliminar".
Proof.
  destruct (article_result_fields libertad hit_blank_dates eq_refl)
    as (r & Hret & Hpub & _ & _ & Hprev & _ & Htext & _).
  exists r. repeat split.
  - exact Hret.
  - apply Hpub. right. reflexivity.
  - apply Hprev. right. reflexivity.
  - exact Htext.
Defined.

Lemma semantic_search_failures_witness :
  (exists detail,
      SE.semantic_search failing_embedding (stub_vector_search [hit_123])
        libertad 0 1 = Raise (HTTPException 500 detail)
      /\ error detail = "EmbeddingGenerationError")
  /\ (exists detail,
         SE.semantic_search stub_embedding failing_vector_search libertad 0 1
         = Raise (HTTPException 500 detail)
         /\ error detail = "DatabaseError").
Proof.
  split.
  - destruct (semantic_search_failures failing_embedding
                (stub_vector_search [hit_123]) libertad 0%float 1%float)
      as (Hemb & _).
    eexists. split; [apply (Hemb (OtherException "quota exceeded")); reflexivity|].
    reflexivity.
  - destruct (semantic_search_failures stub_embedding failing_vector_search
                libertad 0%float 1%float) as (_ & Hdb & _).
    eexists. split.
    + apply (Hdb [0.5%float; 0.25%float] (OtherException "connection refused"));
        reflexivity.
    + reflexivity.
Defined.

(** ** [login] and [get_current_user] *)

Section AuthProperties.

Context {DB : Type}.
Variable get_by_username : DB -> string -> option AU.User.
Variable get_by_id : DB -> string -> option AU.User.
Variable verify_password : AU.User -> string -> bool.
Variable create_access_token : string -> string -> string.
Variable get_token_expiry_seconds : Z.
Variable isoformat : string -> string.

Let login :=
  AU.login get_by_username verify_password create_access_token
    get_token_expiry_seconds.
Let get_current_user := ME.get_current_user get_by_id isoformat.

Lemma login_returns_inv (request : AU.LoginRequest) (db : DB) resp :
  login request db = Return resp ->
  exists user,
    get_by_username db (AU.lr_username request) = Some user
    /\ verify_password user (AU.lr_password request) = true
    /\ AU.is_active user = true
    /\ resp = {| AU.access_token :=
                   create_access_token (AU.id user) (AU.username user);
                 AU.token_type := "bearer";
                 AU.expires_in := get_token_expiry_seconds;
                 AU.tr_user_id := AU.id user;
                 AU.tr_username := AU.username user;
                 AU.tr_available_tokens := AU.available_tokens user |}.
Proof.
  unfold login, AU.login.
  destruct (get_by_username db (AU.lr_username request)) as [user|];
    [|discriminate].
  destruct (verify_password user (AU.lr_password request)) eqn:Hp;
    [|discriminate].
  destruct (AU.is_active user) eqn:Ha; [|discriminate].
  cbn [negb]. intros [= <-]. exists user. repeat split; assumption.
Qed.

(** X13: [login] returns exactly when the username is known, the password
    verifies and the account is active; the token is then issued for the
    stored id and username, its type is "bearer", and the response carries
    the stored id, username and token balance. *)
Theorem login_succeeds_iff (request : AU.LoginRequest) (db : DB) :
  ((exists resp, login request db = Return resp) <->
   exists user,
     get_by_username db (AU.lr_username request) = Some user
     /\ verify_password user (AU.lr_password request) = true
     /\ AU.is_active user = true)
  /\ forall resp user,
      login request db = Return resp ->
      get_by_username db (AU.lr_username request) = Some user ->
      AU.access_token resp = create_access_token (AU.id user) (AU.username user)
      /\ AU.token_type resp = "bearer"
      /\ AU.expires_in resp = get_token_expiry_seconds
      /\ AU.tr_user_id resp = AU.id user
      /\ AU.tr_username resp = AU.username user
      /\ AU.tr_available_tokens resp = AU.available_tokens user.
Proof.
  split; [split|].
  - intros [resp H]. destruct (login_returns_inv _ _ _ H) as (u & ? & ? & ? & _).
    now exists u.
  - intros (user & Hu & Hp & Ha). unfold login, AU.login.
    rewrite Hu, Hp, Ha. eexists; reflexivity.
  - intros resp user H Hu.
    destruct (login_returns_inv _ _ _ H) as (u & Hu' & _ & _ & ->).
    assert (u = user) as -> by congruence. repeat split.
Qed.

(** X14: [get_current_user] raises 401 "User not found" exactly when the
    store has no user with the id of the token; and after a [login] that
    returned, called with a token that carries the id of the response on a
    store that finds the same user by id, it returns the id, username and
    token balance of the login response. *)
Theorem login_then_current_user (request : AU.LoginRequest) (db : DB)
    (payload : CE.TokenPayload) :
  (get_by_id db (CE.user_id payload) = None <->
   get_current_user payload db
   = Raise (HTTPException HTTP_401_UNAUTHORIZED
              (mkDetail "Unauthorized" "User not found" None)))
  /\ forall resp,
      login request db = Return resp ->
      (forall user,
          get_by_username db (AU.lr_username request) = Some user ->
          get_by_id db (AU.id user) = Some user) ->
      CE.user_id payload = AU.tr_user_id resp ->
      exists info,
        get_current_user payload db = Return info
        /\ ME.ui_id info = AU.tr_user_id resp
        /\ ME.ui_username info = AU.tr_username resp
        /\ ME.ui_available_tokens info = AU.tr_available_tokens resp.
Proof.
  split.
  - unfold get_current_user, ME.get_current_user.
    destruct (get_by_id db (CE.user_id payload)); split;
      try discriminate; reflexivity.
  - intros resp Hlogin Hcoherent Hid.
    destruct (login_returns_inv _ _ _ Hlogin) as (user & Hu & _ & _ & ->).
    unfold get_current_user, ME.get_current_user.
    rewrite Hid. cbn [AU.tr_user_id]. rewrite (Hcoherent user Hu).
    eexists. split; [reflexivity|]. repeat split.
Qed.

End AuthProperties.

Lemma login_succeeds_iff_witness :
  exists resp,
    AU.login MS.get_by_username MS.verify_password stub_access_token 86400
      (login_as "alice" "correct horse") MS.store0 = Return resp
    /\ AU.access_token resp = "token.u-alice.alice"
    /\ AU.tr_available_tokens resp = 3.
Proof.
  destruct (login_succeeds_iff MS.get_by_username MS.verify_password
              stub_access_token 86400 (login_as "alice" "correct horse") MS.store0)
    as [[_ Hex] Hfields].
  destruct Hex as [resp Hret].
  - exists MS.alice. repeat split; vm_compute; reflexivity.
  - exists resp. split; [exact Hret|].
    destruct (Hfields resp MS.alice Hret) as (Htok & _ & _ & _ & _ & Hbal).
    + vm_compute. reflexivity.
    + split; assumption.
Defined.

Lemma store0_rows :
  map_to_list (MS.users MS.store0) = [("u-alice", MS.alice); ("u-bob", MS.bob)].
Proof. vm_compute. reflexivity. Qed.

Lemma store0_coherent (name : string) (user : AU.User) :
  MS.get_by_username MS.store0 name = Some user ->
  store_get_by_id MS.store0 (AU.id user) = Some user.
Proof.
  unfold MS.get_by_username. rewrite store0_rows. cbn [List.find snd].
  destruct (String.eqb (AU.username MS.alice) name).
  - intros [= <-]. vm_compute. reflexivity.
  - destruct (String.eqb (AU.username MS.bob) name); [|discriminate].
    intros [= <-]. vm_compute. reflexivity.
Qed.

Lemma login_then_current_user_witness :
  exists info,
    ME.get_current_user store_get_by_id stub_isoformat alice_token MS.store0
    = Return info
    /\ ME.ui_username info = "alice"
    /\ ME.ui_available_tokens info = 3.
Proof.
  destruct (login_then_current_user MS.get_by_username store_get_by_id
              MS.verify_password stub_access_token 86400 stub_isoformat
              (login_as "alice" "correct horse") MS.store0 alice_token)
    as [_ Hme].
  destruct (Hme {| AU.access_token := "token.u-alice.alice";
                   AU.token_type := "bearer";
                   AU.expires_in := 86400;
                   AU.tr_user_id := "u-alice";
                   AU.tr_username := "alice";
                   AU.tr_available_tokens := 3 |})
    as (info & Hret & _ & Hname & Htokens).
  - vm_compute. reflexivity.
  - intros user. apply store0_coherent.
  - reflexivity.
  - exists info. repeat split; assumption.
Defined.

(** ** [chat], again *)

Section ChatStatus.

Context {DB : Type}.
Variable get_token_balance : DB -> string -> Z.
Variable consume_tokens : DB -> string -> Z -> bool * DB.
Variable get_conversation_user_id : DB -> string -> option string.
Variable achat :
  string -> option string -> Z -> string -> DB -> Result PyExc CE.ChatResult * DB.

Let chat := CE.chat get_token_balance consume_tokens get_conversation_user_id achat.



Hypothesis consume_decrements :
  forall (d : DB) (uid : string) (n : Z),
    0 < n <= get_token_balance d uid ->
    get_token_balance (snd (consume_tokens d uid n)) uid
    = get_token_balance d uid - n.

Hypothesis achat_keeps_balances :
  forall query cid top_k caller (d : DB) (uid : string),
    get_token_balance (snd (achat query cid top_k caller d)) uid
    = get_token_balance d uid.

Lemma chat_balance_step (request : CE.ChatRequest) (token : CE.TokenPayload)
    (w : CE.World DB) :
  let balance (x : CE.World DB) := get_token_balance (CE.db x) (CE.user_id token) in
  (is_return (fst (chat request token w)) = true ->
   0 < balance w /\ balance (snd (chat request token w)) = balance w - 1)
  /\ (is_return (fst (chat request token w)) = false ->
      balance (snd (chat request token w)) = balance w)
  /\ (balance w <= 0 -> fst (chat request token w) = Raise payment_required).
Proof.
  cbv zeta. unfold chat. rewrite chat_outcome. cbv zeta.
  destruct (get_token_balance (CE.db w) (CE.user_id token) <=? 0)%Z eqn:Hbal.
  { cbn [fst snd CE.db is_return]. repeat split; try discriminate. }
  apply Z.leb_gt in Hbal.
  destruct (owned_by_another get_conversation_user_id (CE.db w) request token).
  { cbn [fst snd CE.db is_return]. repeat split; try discriminate. lia. }
  pose proof (achat_keeps_balances (CE.req_message request)
                (CE.req_conversation_id request) (CE.req_top_k request)
                (CE.user_id token) (CE.db w) (CE.user_id token)) as Hkeep.
  fold (achat_of achat request token (CE.db w)) in Hkeep.
  destruct (achat_of achat request token (CE.db w)) as [[result|e] d'];
    cbn [snd] in Hkeep; cbn [fst snd CE.db is_return];
    repeat split; try discriminate; try lia.
  rewrite consume_decrements by lia. lia.
Qed.

(** X16: whatever requests a caller sends one after the other, and
    whatever the chat service answers, the caller's balance ends lower by
    exactly the number of requests that were answered; that number never
    exceeds the tokens the caller started with, and a caller who starts
    with none gets 402 for every request. *)
Theorem chat_session_bounded (requests : list CE.ChatRequest)
    (token : CE.TokenPayload) (w : CE.World DB) :
  let balance (x : CE.World DB) := get_token_balance (CE.db x) (CE.user_id token) in
  let answers := fst (chat_session chat requests token w) in
  balance (snd (chat_session chat requests token w))
  = balance w - successes answers
  /\ successes answers <= Z.max 0 (balance w)
  /\ length answers = length requests
  /\ (balance w <= 0 -> Forall (fun a => a = Raise payment_required) answers).
Proof.
  cbv zeta. unfold successes. revert w.
  induction requests as [|request rest IH]; intros w.
  - simpl. repeat split; try lia. constructor.
  - cbn [chat_session].
    destruct (chat_balance_step request token w) as (Hok & Hfail & Hnone).
    destruct (chat request token w) as [answer w'] eqn:Hstep. cbn [fst snd] in *.
    specialize (IH w').
    destruct (chat_session chat rest token w') as [answers w''] eqn:Hrest.
    cbn [fst snd] in *. destruct IH as (IHbal & IHle & IHlen & IHnone).
    destruct (is_return answer) eqn:Hret; cbn [List.filter]; rewrite Hret.
    + destruct (Hok eq_refl) as [Hpos Hstepbal]. cbn [length].
      repeat split; lia.
    + specialize (Hfail eq_refl). repeat split; try lia.
      * cbn [length]. lia.
      * intros Hle. constructor; [now apply Hnone|]. apply IHnone. lia.
Qed.

End ChatStatus.


Lemma chat_session_bounded_witness :
  successes
    (fst (chat_session (chat_on MS.achat_answers)
            [ask None; ask None; ask None; ask None; ask None]
            alice_token world0))
  <= 3.
Proof.
  apply (chat_session_bounded MS.get_token_balance MS.consume_tokens
           MS.get_conversation_user_id MS.achat_answers
           store_consume_decrements store_achat_answers_keeps_balances
           [ask None; ask None; ask None; ask None; ask None]
           alice_token world0).
Defined.

(** ** The conversation endpoints *)

Lemma message_responses_loop_map {datetime : Type} (isoformat : datetime -> string)
    (msgs : list (CE.Message datetime))
    (acc : list CE.ConversationMessageResponse) :
  CE.message_responses_loop isoformat msgs acc
  = (acc ++ map (message_response_of isoformat) msgs)%list.
Proof.
  revert acc. induction msgs as [|msg msgs IH]; intros acc; simpl.
  - now rewrite app_nil_r.
  - rewrite IH, <- app_assoc. reflexivity.
Qed.

Section ConversationProperties.

Context {DB datetime : Type}.
Variable repo_get_conversation :
  DB -> string -> string -> option (CE.Conversation datetime).
Variable repo_delete_conversation : DB -> string -> string -> bool * DB.
Variable repo_clear_conversation : DB -> string -> string -> bool * DB.
Variable isoformat : datetime -> string.
Variable get_token_balance : DB -> string -> Z.
Variable consume_tokens : DB -> string -> Z -> bool * DB.
Variable get_conversation_user_id : DB -> string -> option string.
Variable achat :
  string -> option string -> Z -> string -> DB -> Result PyExc CE.ChatResult * DB.

Let get_conversation := CE.get_conversation repo_get_conversation isoformat.
Let delete_conversation := CE.delete_conversation (DB:=DB) repo_delete_conversation.
Let clear_conversation := CE.clear_conversation (DB:=DB) repo_clear_conversation.
Let chat := CE.chat get_token_balance consume_tokens get_conversation_user_id achat.

(** X17: [get_conversation] returns the messages of the conversation the
    repository gives, one response entry per stored message and in the
    stored order: role, content, ISO time stamp, and the citations of each
    message with their indices in order. *)
Theorem get_conversation_messages (conversation_id : string)
    (token : CE.TokenPayload) (d : DB) (conversation : CE.Conversation datetime) :
  repo_get_conversation d conversation_id (CE.user_id token) = Some conversation ->
  exists resp,
    get_conversation conversation_id token d = Return resp
    /\ CE.cr_id resp = CE.conv_id conversation
    /\ length (CE.cr_messages resp) = length (CE.messages conversation)
    /\ map CE.cm_role (CE.cr_messages resp) = map CE.role (CE.messages conversation)
    /\ map CE.cm_content (CE.cr_messages resp)
       = map CE.content (CE.messages conversation)
    /\ map CE.cm_timestamp (CE.cr_messages resp)
       = map (fun m => isoformat (CE.timestamp m)) (CE.messages conversation)
    /\ map (fun r => map CE.index (CE.cm_citations r)) (CE.cr_messages resp)
       = map (fun m => map CE.c_index (CE.m_citations m)) (CE.messages conversation)
    /\ CE.cr_created_at resp = isoformat (CE.created_at conversation)
    /\ CE.cr_updated_at resp = isoformat (CE.updated_at conversation).
Proof.
  intros H. unfold get_conversation, CE.get_conversation. rewrite H.
  rewrite message_responses_loop_map. cbn [app].
  eexists. split; [reflexivity|].
  cbn [CE.cr_id CE.cr_messages CE.cr_created_at CE.cr_updated_at].
  repeat split; rewrite ?length_map, ?map_map; try reflexivity.
  apply map_ext. intros m. cbn [message_response_of CE.cm_citations].
  now rewrite map_map.
Qed.

(** X18: the four authenticated endpoints that take a conversation id
    answer "not found" with one and the same 404 response: [chat] for a
    conversation of another user, [get_conversation] when the repository
    gives no conversation, [delete_conversation] and [clear_conversation]
    when the repository reports failure; and the last two raise it exactly
    then, leaving the database as the repository left it. *)
Theorem conversation_not_found_uniform (conversation_id : string)
    (token : CE.TokenPayload) (d : DB) :
  let e :=
    HTTPException HTTP_404_NOT_FOUND
      (mkDetail "ConversationNotFound"
         ("Conversation '" +:+ conversation_id +:+ "' not found") None) in
  (repo_get_conversation d conversation_id (CE.user_id token) = None <->
   get_conversation conversation_id token d = Raise e)
  /\ (fst (repo_delete_conversation d conversation_id (CE.user_id token)) = false <->
      fst (delete_conversation conversation_id token d) = Raise e)
  /\ (fst (repo_clear_conversation d conversation_id (CE.user_id token)) = false <->
      fst (clear_conversation conversation_id token d) = Raise e)
  /\ snd (delete_conversation conversation_id token d)
     = snd (repo_delete_conversation d conversation_id (CE.user_id token))
  /\ snd (clear_conversation conversation_id token d)
     = snd (repo_clear_conversation d conversation_id (CE.user_id token))
  /\ (forall (request : CE.ChatRequest) (w : CE.World DB),
         CE.db w = d ->
         CE.req_conversation_id request = Some conversation_id ->
         0 < get_token_balance d (CE.user_id token) ->
         owned_by_another get_conversation_user_id d request token = true ->
         fst (chat request token w) = Raise e).
Proof.
  cbv zeta. unfold get_conversation, delete_conversation, clear_conversation,
    CE.get_conversation, CE.delete_conversation, CE.clear_conversation.
  destruct (repo_get_conversation d conversation_id (CE.user_id token));
    destruct (repo_delete_conversation d conversation_id (CE.user_id token))
      as [[] dd];
    destruct (repo_clear_conversation d conversation_id (CE.user_id token))
      as [[] dc];
    cbn [fst snd negb]; repeat split; try discriminate; try reflexivity.
  all: intros request w <- Hcid Hbal Hown; unfold chat; rewrite chat_outcome;
    cbv zeta; apply Z.leb_gt in Hbal; rewrite Hbal, Hown, Hcid; reflexivity.
Qed.

End ConversationProperties.

Lemma get_conversation_messages_witness :
  exists resp,
    CE.get_conversation sample_get_conversation stub_isoformat
      "conv-alice" alice_token MS.store0 = Return resp
    /\ map CE.cm_role (CE.cr_messages resp) = ["user"; "assistant"]
    /\ map (fun r => map CE.index (CE.cm_citations r)) (CE.cr_messages resp)
       = [[]; [1]].
Proof.
  destruct (get_conversation_messages sample_get_conversation stub_isoformat
              "conv-alice" alice_token MS.store0 sample_conversation eq_refl)
    as (resp & Hret & _ & _ & Hroles & _ & _ & Hcites & _).
  exists resp. repeat split; assumption.
Defined.

Lemma conversation_not_found_uniform_witness :
  CE.get_conversation store_get_conversation stub_isoformat
    "conv-bob" alice_token MS.store0 = Raise (not_found "conv-bob")
  /\ fst (CE.delete_conversation store_delete_conversation
            "conv-bob" alice_token MS.store0) = Raise (not_found "conv-bob")
  /\ fst (chat_on MS.achat_answers (ask (Some "conv-bob")) alice_token world0)
     = Raise (not_found "conv-bob").
Proof.
  destruct (conversation_not_found_uniform store_get_conversation
              store_delete_conversation store_clear_conversation stub_isoformat
              MS.get_token_balance MS.consume_tokens MS.get_conversation_user_id
              MS.achat_answers "conv-bob" alice_token MS.store0)
    as (Hget & Hdel & _ & _ & _ & Hchat).
  split; [apply Hget; reflexivity|].
  split; [apply Hdel; reflexivity|].
  apply (Hchat (ask (Some "conv-bob")) world0); try reflexivity.
Defined.
